(** * Real-time face-swap preview: model wrapper and GUI shell

    A shallow embedding of [face_swap.py] (class [FaceSwapper]) and of the
    event handlers of [gui.py] (class [FaceSwapUI] and the program entry),
    followed by the properties proved about them.

    Conventions of the embedding.
    - A Python call either returns a value or raises: [outcome A].  A method
      that mutates [self] is a function from the state before the call to an
      outcome and the state after it ([PyM S A]); a raise keeps the mutations
      made so far, as in Python.
    - External collaborators (the detection model, the swap model, the camera,
      the file dialog, [cv2.imread]) are opaque: each call site receives the
      result of the external call as an argument or through a record of
      functions.  Images and faces are abstract types.
    - An exception is an instance of a subclass of [Exception], the class
      every [except] clause of the program names.
    - [time.time()] is a binary64 float, as in CPython.
    - Of the window, the attributes that some handler reads or writes are
      modelled; layouts, container style sheets and the widgets no handler
      touches ([quality_spin], [cpu_label]) are not.  A modal message box is
      recorded when it is shown. *)

From Stdlib Require Import ZArith List String Ascii Bool Lia.
From Stdlib Require Import PrimFloat.
From stdpp Require Import base option list gmap strings pretty.

Open Scope Z_scope.
Open Scope string_scope.

(** ** Python control flow *)

Module Py.

(** An instance of a subclass of [Exception]: its class name and [str(e)]. *)
Record exn : Type := Exception { exn_class : string; exn_str : string }.

Definition KeyError (key : string) : exn :=
  Exception "KeyError" ("'" ++ key ++ "'").
Definition IndexError : exn :=
  Exception "IndexError" "list index out of range".
Definition ValueError (msg : string) : exn :=
  Exception "ValueError" msg.

Definition str (e : exn) : string := exn_str e.

Inductive outcome (A : Type) : Type :=
| Return (a : A)
| Raise (e : exn).
Arguments Return {A} a.
Arguments Raise {A} e.

Definition returns {A} (o : outcome A) : bool :=
  match o with Return _ => true | Raise _ => false end.

(** State-and-exception monad: the state is what the callee may mutate. *)
Definition PyM (S A : Type) : Type := S -> outcome A * S.

Definition ret {S A} (a : A) : PyM S A := fun s => (Return a, s).

Definition bind {S A B} (m : PyM S A) (k : A -> PyM S B) : PyM S B :=
  fun s =>
    match m s with
    | (Return a, s') => k a s'
    | (Raise e, s') => (Raise e, s')
    end.

Definition raise {S A} (e : exn) : PyM S A := fun s => (Raise e, s).

(** The result of an external call, injected at the call site. *)
Definition call {S A} (o : outcome A) : PyM S A := fun s => (o, s).

Definition get {S} : PyM S S := fun s => (Return s, s).
Definition modify {S} (f : S -> S) : PyM S unit := fun s => (Return tt, f s).

(** [try: body  except Exception as e: handler e] *)
Definition try_except {S A} (body : PyM S A) (handler : exn -> PyM S A)
  : PyM S A :=
  fun s =>
    match body s with
    | (Return a, s') => (Return a, s')
    | (Raise e, s') => handler e s'
    end.

(** [try: body  finally: fin] *)
Definition try_finally {S A} (body : PyM S A) (fin : PyM S unit)
  : PyM S A :=
  fun s =>
    match body s with
    | (r, s') =>
        match fin s' with
        | (Return _, s'') => (r, s'')
        | (Raise e, s'') => (Raise e, s'')
        end
    end.

(** [l[i]] for a list and a non-negative index. *)
Definition index {S A} (l : list A) (i : nat) : PyM S A :=
  match l !! i with
  | Some x => ret x
  | None => raise IndexError
  end.

(** [for x in xs: body x] *)
Fixpoint for_each {S A} (xs : list A) (body : A -> PyM S unit)
  : PyM S unit :=
  match xs with
  | [] => ret tt
  | x :: xs' => bind (body x) (fun _ => for_each xs' body)
  end.

(** [m] leaves the part [proj] of the state as it was, whether it returns
    or raises. *)
Definition keeps {S A T} (proj : S -> T) (m : PyM S A) : Prop :=
  forall s, proj (m s).2 = proj s.

Declare Scope py_scope.
Delimit Scope py_scope with py.
Notation "x <- m ;; k" := (bind m (fun x => k))
  (at level 100, m at next level, right associativity) : py_scope.
Notation "m ;;; k" := (bind m (fun _ => k))
  (at level 100, right associativity) : py_scope.

End Py.

Import Py.

(** Unfolds the control-flow combinators, leaving the case analysis. *)
Ltac unfold_py :=
  unfold bind, ret, call, raise, modify, get, try_except, try_finally, index in *.

(** ** face_swap.py *)

Module face_swap.

Inductive level : Type := INFO | WARNING | ERROR.

Definition levelname (l : level) : string :=
  match l with INFO => "INFO" | WARNING => "WARNING" | ERROR => "ERROR" end.

(** A record handed by [logger] to the installed handlers. *)
Record LogRecord : Type := { lr_level : level; lr_message : string }.

Definition Log : Type := list LogRecord.

Definition logger_emit {S} (put : LogRecord -> S -> S) (l : level)
    (msg : string) : PyM S unit :=
  modify (put {| lr_level := l; lr_message := msg |}).

Section Wrapper.
Context {Image Face : Type}.

(** [insightface.app.FaceAnalysis]: [get img] returns the detected faces. *)
Record FaceAnalysis : Type := { fa_get : Image -> outcome (list Face) }.

(** The inswapper model: [get(img, target_face, source_face, paste_back)];
    the value returned is an image or [None]. *)
Record INSwapper : Type :=
  { sw_get : Image -> Face -> Face -> bool -> outcome (option Image) }.

Record Thread : Type := { is_alive : bool }.

Record FaceSwapper : Type :=
  { app : option FaceAnalysis;
    swapper : option INSwapper;
    thread : Thread }.

Definition set_app (a : option FaceAnalysis) (self : FaceSwapper) :=
  {| app := a; swapper := swapper self; thread := thread self |}.
Definition set_swapper (s : option INSwapper) (self : FaceSwapper) :=
  {| app := app self; swapper := s; thread := thread self |}.
Definition set_thread (t : Thread) (self : FaceSwapper) :=
  {| app := app self; swapper := swapper self; thread := t |}.

(** [FaceSwapper.__init__]: both models absent, loader thread started. *)
Definition __init__ : FaceSwapper :=
  {| app := None; swapper := None; thread := {| is_alive := true |} |}.

(** What the loader thread meets outside the program. *)
Record LoadEnv : Type :=
  { new_FaceAnalysis : outcome FaceAnalysis;   (* FaceAnalysis(name='buffalo_l') *)
    prepare : outcome unit;                    (* app.prepare(ctx_id=0, ...) *)
    model_path : string;                       (* os.path.expanduser(...) *)
    path_exists : bool;                        (* os.path.exists(model_path) *)
    get_model : outcome INSwapper }.           (* model_zoo.get_model(model_path) *)

Definition put_log (r : LogRecord) (st : FaceSwapper * Log) :=
  (st.1, (st.2 ++ [r])%list).
Definition upd_self (f : FaceSwapper -> FaceSwapper)
    (st : FaceSwapper * Log) := (f st.1, st.2).

(** [FaceSwapper._load_models], the body of the loader thread. *)
Definition _load_models (env : LoadEnv) : PyM (FaceSwapper * Log) unit :=
  try_except
    (logger_emit put_log INFO "开始加载人脸检测模型..." ;;;
     a <- call (new_FaceAnalysis env) ;;
     modify (upd_self (set_app (Some a))) ;;;
     call (prepare env) ;;;
     logger_emit put_log INFO "人脸检测模型加载完成" ;;;
     if negb (path_exists env) then
       logger_emit put_log ERROR ("模型文件不存在: " ++ model_path env)
     else
       logger_emit put_log INFO "开始加载换脸模型..." ;;;
       m <- call (get_model env) ;;
       modify (upd_self (set_swapper (Some m))) ;;;
       logger_emit put_log INFO "换脸模型加载完成")%py
    (fun e =>
       logger_emit put_log ERROR ("模型加载失败: " ++ str e) ;;;
       modify (upd_self (set_app None)) ;;;
       modify (upd_self (set_swapper None)))%py.

(** The loader thread from start to exit: afterwards it is not alive. *)
Definition run_loader (env : LoadEnv) (self : FaceSwapper)
  : FaceSwapper * Log :=
  let st := (_load_models env (self, [])).2 in
  (set_thread {| is_alive := false |} st.1, st.2).

Definition log (r : LogRecord) (l : Log) : Log := (l ++ [r])%list.

(** [FaceSwapper.swap_face(src_img, dst_img)].  The state threaded is the
    list of records logged. *)
Definition swap_face (self : FaceSwapper) (src_img dst_img : Image)
  : PyM Log (option Image) :=
  (if is_alive (thread self) then
     logger_emit log INFO "模型仍在加载中..." ;;;
     ret (Some dst_img)
   else
     match swapper self, app self with
     | Some the_swapper, Some the_app =>
         try_except
           (src_faces <- call (fa_get the_app src_img) ;;
            dst_faces <- call (fa_get the_app dst_img) ;;
            if (Z.of_nat (length src_faces) =? 0)%Z then
              logger_emit log WARNING "源图片中未检测到人脸" ;;;
              ret (Some dst_img)
            else if (Z.of_nat (length dst_faces) =? 0)%Z then
              logger_emit log WARNING "目标图片中未检测到人脸" ;;;
              ret (Some dst_img)
            else
              dst_face <- index dst_faces 0 ;;
              src_face <- index src_faces 0 ;;
              result <- call (sw_get the_swapper dst_img dst_face src_face true) ;;
              ret result)
           (fun e =>
              logger_emit log ERROR ("换脸过程中出错: " ++ str e) ;;;
              ret (Some dst_img))
     | _, _ =>
         logger_emit log ERROR "模型未正确加载" ;;;
         ret (Some dst_img)
     end)%py.

End Wrapper.

Arguments FaceAnalysis : clear implicits.
Arguments INSwapper : clear implicits.
Arguments FaceSwapper : clear implicits.
Arguments LoadEnv : clear implicits.

End face_swap.


(** ** gui.py *)

Module gui.

Import face_swap.

(** *** The toolkit objects the window holds

    Each Qt or OpenCV object is the record of the properties the handlers
    read or write. *)

(** [threading.Lock] *)
Record Lock : Type := { locked : bool }.

(** [cv2.VideoCapture]: open or released, and the frame size requested. *)
Record VideoCapture : Type :=
  { isOpened : bool;
    CAP_PROP_FRAME_WIDTH : option Z;
    CAP_PROP_FRAME_HEIGHT : option Z }.

Definition release (c : VideoCapture) : VideoCapture :=
  {| isOpened := false;
     CAP_PROP_FRAME_WIDTH := CAP_PROP_FRAME_WIDTH c;
     CAP_PROP_FRAME_HEIGHT := CAP_PROP_FRAME_HEIGHT c |}.

Definition set_FRAME_WIDTH (w : Z) (c : VideoCapture) : VideoCapture :=
  {| isOpened := isOpened c;
     CAP_PROP_FRAME_WIDTH := Some w;
     CAP_PROP_FRAME_HEIGHT := CAP_PROP_FRAME_HEIGHT c |}.

Definition set_FRAME_HEIGHT (h : Z) (c : VideoCapture) : VideoCapture :=
  {| isOpened := isOpened c;
     CAP_PROP_FRAME_WIDTH := CAP_PROP_FRAME_WIDTH c;
     CAP_PROP_FRAME_HEIGHT := Some h |}.

(** [QTimer]: running or not, and its interval in milliseconds. *)
Record QTimer : Type := { isActive : bool; interval : Z }.

Definition timer_start (msec : Z) (t : QTimer) : QTimer :=
  {| isActive := true; interval := msec |}.
Definition timer_stop (t : QTimer) : QTimer :=
  {| isActive := false; interval := interval t |}.

(** [QComboBox], not editable: the items and the current index, which is
    [-1] exactly when there is no item. *)
Record QComboBox : Type := { items : list string; currentIndex : Z }.

Definition count (c : QComboBox) : Z := Z.of_nat (length (items c)).

Definition itemText (c : QComboBox) (i : Z) : string :=
  if (i <? 0)%Z then "" else default "" (items c !! Z.to_nat i).

Definition currentText (c : QComboBox) : string := itemText c (currentIndex c).

(** [addItem]: the item is appended; added to an empty box it becomes the
    current one, and [currentIndexChanged(0)] is emitted (the second
    component). *)
Definition addItem (name : string) (c : QComboBox) : QComboBox * option Z :=
  if (currentIndex c <? 0)%Z && (count c =? 0)%Z then
    ({| items := (items c ++ [name])%list; currentIndex := 0 |}, Some 0%Z)
  else
    ({| items := (items c ++ [name])%list; currentIndex := currentIndex c |},
     None).

(** The user picks row [i] of the popup: a valid row other than the current
    one becomes current and [currentIndexChanged(i)] is emitted. *)
Definition activate (i : Z) (c : QComboBox) : QComboBox * option Z :=
  if (0 <=? i)%Z && (i <? count c)%Z && negb (i =? currentIndex c)%Z then
    ({| items := items c; currentIndex := i |}, Some i)
  else (c, None).

Record QPushButton : Type := { button_text : string }.
Record QCheckBox : Type := { isChecked : bool }.
Record QProgressBar : Type := { value : Z; bar_hidden : bool }.
(** [showMessage(message, timeout)]; timeout [0] keeps the message. *)
Record QStatusBar : Type := { message : string; timeout : Z }.

Inductive icon : Type := Critical | Warning.
(** A modal [QMessageBox.critical] or [QMessageBox.warning] that was shown. *)
Record QMessageBox : Type :=
  { box_icon : icon; box_title : string; box_text : string }.

(** The slots a single-shot timer is armed with. *)
Inductive slot : Type := init_camera_slot.

Section Window.
Context {Image Face : Type}.

(** [QPixmap], as the expression that built it. *)
Inductive QPixmap : Type :=
| NullPixmap                                   (* QPixmap() *)
| fromImage (frame : Image)                    (* QPixmap.fromImage(QImage(frame.data, ...)) *)
| scaled (p : QPixmap) (w h : Z).              (* p.scaled(w, h, Qt.KeepAspectRatio) *)

Record QLabel : Type :=
  { text : string;
    styleSheet : string;
    pixmap : option QPixmap;
    label_hidden : bool }.

(** Setting a text or a pixmap replaces the label's previous content. *)
Definition setText (s : string) (l : QLabel) : QLabel :=
  {| text := s; styleSheet := styleSheet l; pixmap := None;
     label_hidden := label_hidden l |}.
Definition setStyleSheet (s : string) (l : QLabel) : QLabel :=
  {| text := text l; styleSheet := s; pixmap := pixmap l;
     label_hidden := label_hidden l |}.
Definition setPixmap (p : QPixmap) (l : QLabel) : QLabel :=
  {| text := ""; styleSheet := styleSheet l; pixmap := Some p;
     label_hidden := label_hidden l |}.
Definition hide (l : QLabel) : QLabel :=
  {| text := text l; styleSheet := styleSheet l; pixmap := pixmap l;
     label_hidden := true |}.

(** One call of [swap_face] made by the window: its arguments and whether
    the window's lock was held when the call was made. *)
Record SwapCall : Type :=
  { call_src : Image; call_dst : Image; call_locked : bool }.

(** The window.  The fields down to [status_bar] are the attributes that
    [__init__] and [init_ui] create; the last three belong to the
    application around it: the message boxes shown so far, the single-shot
    timers still pending, and the calls of [swap_face] made so far. *)
Record FaceSwapUI : Type :=
  { swapper : FaceSwapper Image Face;
    src_img : option Image;
    src_images : gmap string Image;
    current_src_index : Z;
    lock : Lock;
    cap : option VideoCapture;
    timer : option QTimer;
    fps : Z;
    frame_count : Z;
    last_time : float;
    is_running : bool;
    source_combo : QComboBox;
    resolution_combo : QComboBox;
    start_button : QPushButton;
    face_detection_check : QCheckBox;
    fps_label : QLabel;
    src_label : QLabel;
    src_status : QLabel;
    cam_label : QLabel;
    cam_status : QLabel;
    progress_bar : QProgressBar;
    loading_label : QLabel;
    status_bar : QStatusBar;
    dialogs : list QMessageBox;
    single_shots : list (Z * slot);
    swap_calls : list SwapCall }.


(** Field updates.  [eta self] rebuilds [self] from its fields; [set_f v self]
    is [eta self] with the field [f] replaced by [v], that is [self] after
    the assignment [self.f = v]. *)
Definition eta (self : FaceSwapUI) : FaceSwapUI :=
  Build_FaceSwapUI (swapper self) (src_img self) (src_images self)
  (current_src_index self) (lock self) (cap self) (timer self) (fps self)
  (frame_count self) (last_time self) (is_running self) (source_combo self)
  (resolution_combo self) (start_button self) (face_detection_check self)
  (fps_label self) (src_label self) (src_status self) (cam_label self)
  (cam_status self) (progress_bar self) (loading_label self) (status_bar self)
  (dialogs self) (single_shots self) (swap_calls self).

Ltac field_update proj :=
  let v := fresh "v" in
  let self := fresh "self" in
  intros v self;
  let e := eval cbv beta delta [eta] in (eta self) in
  match eval pattern (proj self) in e with
  | ?f _ => let r := eval cbv beta in (f v) in exact r
  end.

Definition set_swapper : FaceSwapper Image Face -> FaceSwapUI -> FaceSwapUI.
Proof. field_update swapper. Defined.
Definition set_src_img : option Image -> FaceSwapUI -> FaceSwapUI.
Proof. field_update src_img. Defined.
Definition set_src_images : gmap string Image -> FaceSwapUI -> FaceSwapUI.
Proof. field_update src_images. Defined.
Definition set_current_src_index : Z -> FaceSwapUI -> FaceSwapUI.
Proof. field_update current_src_index. Defined.
Definition set_lock : Lock -> FaceSwapUI -> FaceSwapUI.
Proof. field_update lock. Defined.
Definition set_cap : option VideoCapture -> FaceSwapUI -> FaceSwapUI.
Proof. field_update cap. Defined.
Definition set_timer : option QTimer -> FaceSwapUI -> FaceSwapUI.
Proof. field_update timer. Defined.
Definition set_fps : Z -> FaceSwapUI -> FaceSwapUI.
Proof. field_update fps. Defined.
Definition set_frame_count : Z -> FaceSwapUI -> FaceSwapUI.
Proof. field_update frame_count. Defined.
Definition set_last_time : float -> FaceSwapUI -> FaceSwapUI.
Proof. field_update last_time. Defined.
Definition set_is_running : bool -> FaceSwapUI -> FaceSwapUI.
Proof. field_update is_running. Defined.
Definition set_source_combo : QComboBox -> FaceSwapUI -> FaceSwapUI.
Proof. field_update source_combo. Defined.
Definition set_resolution_combo : QComboBox -> FaceSwapUI -> FaceSwapUI.
Proof. field_update resolution_combo. Defined.
Definition set_start_button : QPushButton -> FaceSwapUI -> FaceSwapUI.
Proof. field_update start_button. Defined.
Definition set_face_detection_check : QCheckBox -> FaceSwapUI -> FaceSwapUI.
Proof. field_update face_detection_check. Defined.
Definition set_fps_label : QLabel -> FaceSwapUI -> FaceSwapUI.
Proof. field_update fps_label. Defined.
Definition set_src_label : QLabel -> FaceSwapUI -> FaceSwapUI.
Proof. field_update src_label. Defined.
Definition set_src_status : QLabel -> FaceSwapUI -> FaceSwapUI.
Proof. field_update src_status. Defined.
Definition set_cam_label : QLabel -> FaceSwapUI -> FaceSwapUI.
Proof. field_update cam_label. Defined.
Definition set_cam_status : QLabel -> FaceSwapUI -> FaceSwapUI.
Proof. field_update cam_status. Defined.
Definition set_progress_bar : QProgressBar -> FaceSwapUI -> FaceSwapUI.
Proof. field_update progress_bar. Defined.
Definition set_loading_label : QLabel -> FaceSwapUI -> FaceSwapUI.
Proof. field_update loading_label. Defined.
Definition set_status_bar : QStatusBar -> FaceSwapUI -> FaceSwapUI.
Proof. field_update status_bar. Defined.
Definition set_dialogs : list QMessageBox -> FaceSwapUI -> FaceSwapUI.
Proof. field_update dialogs. Defined.
Definition set_single_shots : list (Z * slot) -> FaceSwapUI -> FaceSwapUI.
Proof. field_update single_shots. Defined.
Definition set_swap_calls : list SwapCall -> FaceSwapUI -> FaceSwapUI.
Proof. field_update swap_calls. Defined.


(** *** Helpers for the toolkit calls made on [self] *)

Definition showMessage (msg : string) (msec : Z) (_ : QStatusBar) : QStatusBar :=
  {| message := msg; timeout := msec |}.

Definition show_box (i : icon) (title body : string) : PyM FaceSwapUI unit :=
  modify (fun self =>
    set_dialogs
      (dialogs self ++ [{| box_icon := i; box_title := title; box_text := body |}])%list
      self).

(** [QMessageBox.critical(self, title, body)] *)
Definition QMessageBox_critical := show_box Critical.
(** [QMessageBox.warning(self, title, body)] *)
Definition QMessageBox_warning := show_box Warning.

(** [QTimer.singleShot(msec, slot)] *)
Definition QTimer_singleShot (msec : Z) (f : slot) : PyM FaceSwapUI unit :=
  modify (fun self => set_single_shots (single_shots self ++ [(msec, f)])%list self).

(** [str.split(sep)] for a one-character separator. *)
Fixpoint split (sep : ascii) (s : string) : list string :=
  match s with
  | EmptyString => [EmptyString]
  | String c rest =>
      if Ascii.eqb c sep then EmptyString :: split sep rest
      else match split sep rest with
           | [] => [String c EmptyString]
           | h :: t => String c h :: t
           end
  end.

Definition digit (c : ascii) : option Z :=
  let n := Z.of_nat (nat_of_ascii c) in
  if (48 <=? n)%Z && (n <=? 57)%Z then Some (n - 48)%Z else None.

Fixpoint int_digits (s : string) (acc : Z) : option Z :=
  match s with
  | EmptyString => Some acc
  | String c rest =>
      match digit c with
      | Some d => int_digits rest (10 * acc + d)%Z
      | None => None
      end
  end.

(** [int(s)] on the strings the resolution box holds: a non-empty run of
    decimal digits is its value, anything else is reported as [ValueError]. *)
Definition int (s : string) : outcome Z :=
  let bad := ValueError ("invalid literal for int() with base 10: '" ++ s ++ "'") in
  match s with
  | EmptyString => Raise bad
  | _ => match int_digits s 0 with
         | Some n => Return n
         | None => Raise bad
         end
  end.

(** [os.path.basename] (POSIX): what follows the last slash. *)
Definition basename (path : string) : string :=
  List.last (split "/" path) EmptyString.

(** *** The methods of [FaceSwapUI] *)

(** [FaceSwapUI.cv2_to_pixmap(frame)]; [None] is an absent frame. *)
Definition cv2_to_pixmap (frame : option Image) : QPixmap :=
  match frame with
  | None => NullPixmap
  | Some frame => fromImage frame
  end.

(** [FaceSwapUI.handle_log(message, level)] *)
Definition handle_log (msg lvl : string) : PyM FaceSwapUI unit :=
  if String.eqb lvl "INFO" then
    modify (fun self => set_status_bar (showMessage msg 0 (status_bar self)) self)
  else if String.eqb lvl "WARNING" then
    modify (fun self => set_status_bar (showMessage msg 5000 (status_bar self)) self)
  else if String.eqb lvl "ERROR" then
    QMessageBox_warning "警告" msg
  else ret tt.

(** [LogHandler.emit_log(record)]: the record is formatted as
    ['%(levelname)s: %(message)s'] and sent through [log_signal], whose slot
    is [handle_log]. *)
Definition emit_log (record : LogRecord) : PyM FaceSwapUI unit :=
  let msg := levelname (lr_level record) ++ ": " ++ lr_message record in
  handle_log msg (levelname (lr_level record)).

(** [FaceSwapUI.change_source_image(index)] *)
Definition change_source_image (index : Z) : PyM FaceSwapUI unit :=
  (self <- get ;;
   if (index >=? 0)%Z && (index <? count (source_combo self))%Z then
     let name := currentText (source_combo self) in
     match src_images self !! name with
     | None => raise (KeyError name)
     | Some img =>
         modify (set_src_img (Some img)) ;;;
         let src_pixmap := cv2_to_pixmap (Some img) in
         modify (fun self =>
           set_src_label (setPixmap (scaled src_pixmap 600 450) (src_label self)) self) ;;;
         modify (fun self =>
           set_src_status (setText "等待检测人脸..." (src_status self)) self) ;;;
         modify (fun self =>
           set_src_status (setStyleSheet "color: #888888;" (src_status self)) self)
     end
   else ret tt)%py.

(** [self.source_combo.addItem(name)], with the slot connected to
    [currentIndexChanged] run when the signal is emitted. *)
Definition source_combo_addItem (name : string) : PyM FaceSwapUI unit :=
  (self <- get ;;
   let '(combo, emitted) := addItem name (source_combo self) in
   modify (set_source_combo combo) ;;;
   match emitted with
   | Some i => change_source_image i
   | None => ret tt
   end)%py.

(** The body of the [for] loop of [add_source_image], for one selected
    [file]; [imread] is what [cv2.imread(file)] does. *)
Definition add_source_image_file (file : string)
    (imread : outcome (option Image)) : PyM FaceSwapUI unit :=
  try_except
    (img <- call imread ;;
     match img with
     | Some img =>
         let name := basename file in
         modify (fun self =>
           set_src_images (<[name := img]> (src_images self)) self) ;;;
         source_combo_addItem name ;;;
         self <- get ;;
         if (Z.of_nat (size (src_images self)) =? 1)%Z
         then change_source_image 0
         else ret tt
     | None => ret tt
     end)%py
    (fun e => QMessageBox_warning "警告" ("加载图片失败: " ++ str e)).

(** [FaceSwapUI.add_source_image()].  [accepted] is the result of
    [file_dialog.exec_()]; [files] pairs each selected path with what
    [cv2.imread] does on it. *)
Definition add_source_image (accepted : bool)
    (files : list (string * outcome (option Image))) : PyM FaceSwapUI unit :=
  if accepted then
    for_each files (fun '(file, imread) => add_source_image_file file imread)
  else ret tt.

(** [FaceSwapUI.stop_camera()] *)
Definition stop_camera : PyM FaceSwapUI unit :=
  (self <- get ;;
   (match cap self with
    | Some c => if isOpened c then modify (set_cap (Some (release c))) else ret tt
    | None => ret tt
    end) ;;;
   (match timer self with
    | Some t => modify (set_timer (Some (timer_stop t)))
    | None => ret tt
    end) ;;;
   modify (set_is_running false) ;;;
   modify (fun self =>
     set_status_bar (showMessage "摄像头已停止" 0 (status_bar self)) self))%py.

(** [self.cap.set(prop, value)] *)
Definition cap_set (f : Z -> VideoCapture -> VideoCapture) (v : Z)
  : PyM FaceSwapUI unit :=
  modify (fun self => set_cap (f v <$> cap self) self).

(** [FaceSwapUI.start_camera()].  [device] is what [cv2.VideoCapture(0)]
    does: it raises, or returns a capture that is open or not. *)
Definition start_camera (device : outcome bool) : PyM FaceSwapUI unit :=
  try_except
    (opened <- call device ;;
     modify (set_cap (Some {| isOpened := opened;
                              CAP_PROP_FRAME_WIDTH := None;
                              CAP_PROP_FRAME_HEIGHT := None |})) ;;;
     if negb opened then
       QMessageBox_critical "错误" "无法打开摄像头"
     else
       self <- get ;;
       let resolution := split "x" (currentText (resolution_combo self)) in
       r0 <- index resolution 0 ;;
       width <- call (int r0) ;;
       cap_set set_FRAME_WIDTH width ;;;
       r1 <- index resolution 1 ;;
       height <- call (int r1) ;;
       cap_set set_FRAME_HEIGHT height ;;;
       modify (set_timer (Some (timer_start 30 {| isActive := false; interval := 0 |}))) ;;;
       modify (set_is_running true) ;;;
       modify (fun self =>
         set_status_bar (showMessage "摄像头已启动" 0 (status_bar self)) self))%py
    (fun e => QMessageBox_critical "错误" ("摄像头初始化失败: " ++ str e)).

(** [FaceSwapUI.toggle_camera()] *)
Definition toggle_camera (device : outcome bool) : PyM FaceSwapUI unit :=
  (self <- get ;;
   if is_running self then
     stop_camera ;;;
     modify (set_start_button {| button_text := "开始" |})
   else
     start_camera device ;;;
     modify (set_start_button {| button_text := "停止" |}))%py.

(** [FaceSwapUI.init_camera()] *)
Definition init_camera : PyM FaceSwapUI unit :=
  (self <- get ;;
   if is_alive (thread (swapper self)) then
     modify (fun self =>
       set_progress_bar {| value := value (progress_bar self); bar_hidden := false |} self) ;;;
     modify (fun self =>
       set_progress_bar {| value := 50; bar_hidden := bar_hidden (progress_bar self) |} self) ;;;
     QTimer_singleShot 500 init_camera_slot
   else
     modify (fun self =>
       set_progress_bar {| value := value (progress_bar self); bar_hidden := true |} self) ;;;
     modify (fun self => set_loading_label (hide (loading_label self)) self))%py.

(** [self.lock.acquire(blocking=False)] *)
Definition lock_acquire_nonblocking : PyM FaceSwapUI bool :=
  fun self =>
    if locked (lock self) then (Return false, self)
    else (Return true, set_lock {| locked := true |} self).

(** [self.lock.release()] *)
Definition lock_release : PyM FaceSwapUI unit :=
  fun self =>
    if locked (lock self) then (Return tt, set_lock {| locked := false |} self)
    else (Raise (Exception "RuntimeError" "release unlocked lock"), self).

(** [self.swapper.swap_face(src, frame)] as the window sees it: the call is
    noted in [swap_calls], and every record the wrapper logs reaches
    [emit_log]. *)
Definition call_swap_face (src frame : Image) : PyM FaceSwapUI (option Image) :=
  fun self =>
    let noted :=
      set_swap_calls
        (swap_calls self ++
           [{| call_src := src; call_dst := frame;
               call_locked := locked (lock self) |}])%list self in
    let '(result, records) := swap_face (swapper self) src frame [] in
    match for_each records emit_log noted with
    | (Return _, self') => (result, self')
    | (Raise e, self') => (Raise e, self')
    end.

Definition set_cam_status_text (s : string) : PyM FaceSwapUI unit :=
  modify (fun self => set_cam_status (setText s (cam_status self)) self).
Definition set_cam_status_style (s : string) : PyM FaceSwapUI unit :=
  modify (fun self => set_cam_status (setStyleSheet s (cam_status self)) self).

(** [FaceSwapUI.update_frame()].  [read] is what [self.cap.read()] returns:
    [None] for [(False, None)], [Some frame] for [(True, frame)];
    [current_time] is [time.time()]. *)
Definition update_frame (read : option Image) (current_time : float)
  : PyM FaceSwapUI unit :=
  (self <- get ;;
   match cap self with
   | None => ret tt
   | Some c =>
     if negb (isOpened c) then ret tt else
     match read with
     | None => ret tt
     | Some frame =>
       modify (fun self => set_frame_count (frame_count self + 1)%Z self) ;;;
       self <- get ;;
       (if PrimFloat.leb 1%float (PrimFloat.sub current_time (last_time self)) then
          modify (fun self => set_fps (frame_count self) self) ;;;
          modify (set_frame_count 0%Z) ;;;
          modify (set_last_time current_time) ;;;
          modify (fun self =>
            set_fps_label (setText ("FPS: " ++ pretty (fps self)) (fps_label self)) self)
        else ret tt) ;;;
       acquired <- lock_acquire_nonblocking ;;
       display_frame <-
         (if acquired then
            try_finally
              (self <- get ;;
               match isChecked (face_detection_check self), src_img self with
               | true, Some src =>
                   result <- call_swap_face src frame ;;
                   match result with
                   | Some swapped =>
                       set_cam_status_text "检测到人脸" ;;;
                       set_cam_status_style "color: #4CAF50;" ;;;
                       ret swapped
                   | None =>
                       set_cam_status_text "未检测到人脸" ;;;
                       set_cam_status_style "color: #f44336;" ;;;
                       ret frame
                   end
               | _, src =>
                   (match src with
                    | None => set_cam_status_text "请选择源图片"
                    | Some _ => set_cam_status_text "人脸检测已禁用"
                    end) ;;;
                   set_cam_status_style "color: #888888;" ;;;
                   ret frame
               end)
              lock_release
          else ret frame) ;;
       let pixmap := cv2_to_pixmap (Some display_frame) in
       modify (fun self =>
         set_cam_label (setPixmap (scaled pixmap 800 600) (cam_label self)) self)
     end
   end)%py.

(** [FaceSwapUI.closeEvent(event)] *)
Definition closeEvent : PyM FaceSwapUI unit := stop_camera.

(** [FaceSwapUI.__init__()], with the widgets as [init_ui] leaves them.
    [now] is [time.time()] at construction. *)
Definition __init__ (now : float) : FaceSwapUI :=
  {| swapper := face_swap.__init__;
     src_img := None;
     src_images := ∅;
     current_src_index := 0;
     lock := {| locked := false |};
     cap := None;
     timer := None;
     fps := 0;
     frame_count := 0;
     last_time := now;
     is_running := true;
     source_combo := {| items := []; currentIndex := -1 |};
     resolution_combo :=
       {| items := ["640x480"; "1280x720"; "1920x1080"]; currentIndex := 0 |};
     start_button := {| button_text := "开始" |};
     face_detection_check := {| isChecked := true |};
     fps_label :=
       {| text := "FPS: 0"; styleSheet := ""; pixmap := None; label_hidden := false |};
     src_label :=
       {| text := ""; styleSheet := ""; pixmap := None; label_hidden := false |};
     src_status :=
       {| text := "等待选择源图片..."; styleSheet := "color: #888888;";
          pixmap := None; label_hidden := false |};
     cam_label :=
       {| text := ""; styleSheet := ""; pixmap := None; label_hidden := false |};
     cam_status :=
       {| text := "等待检测人脸..."; styleSheet := "color: #888888;";
          pixmap := None; label_hidden := false |};
     progress_bar := {| value := 0; bar_hidden := true |};
     loading_label :=
       {| text := "模型加载中...";
          styleSheet :=
            "font-size: 20px; color: white; background: rgba(0,0,0,150); "
            ++ "padding: 20px; border-radius: 10px;";
          pixmap := None; label_hidden := false |};
     status_bar := {| message := "就绪"; timeout := 0 |};
     dialogs := [];
     single_shots := [(1000, init_camera_slot)];
     swap_calls := [] |}.

(** *** The event loop

    What Qt delivers to the window, each event with the results of the
    external calls its slot makes. *)
Inductive event : Type :=
| add_source_clicked (accepted : bool)
    (files : list (string * outcome (option Image)))
| source_activated (i : Z)
| resolution_activated (i : Z)
| face_detection_clicked
| start_clicked (device : outcome bool)
| timer_timeout (read : option Image) (current_time : float)
| single_shot_timeout
| loader_exited (env : LoadEnv Image Face)
| close_requested.

Definition run_slot (f : slot) : PyM FaceSwapUI unit :=
  match f with init_camera_slot => init_camera end.

Definition dispatch (ev : event) : PyM FaceSwapUI unit :=
  (self <- get ;;
   match ev with
   | add_source_clicked accepted files => add_source_image accepted files
   | source_activated i =>
       let '(combo, emitted) := activate i (source_combo self) in
       modify (set_source_combo combo) ;;;
       match emitted with
       | Some i => change_source_image i
       | None => ret tt
       end
   | resolution_activated i =>
       modify (set_resolution_combo (activate i (resolution_combo self)).1)
   | face_detection_clicked =>
       modify (set_face_detection_check
                 {| isChecked := negb (isChecked (face_detection_check self)) |})
   | start_clicked device => toggle_camera device
   | timer_timeout read current_time =>
       match timer self with
       | Some t => if isActive t then update_frame read current_time else ret tt
       | None => ret tt
       end
   | single_shot_timeout =>
       match single_shots self with
       | (_, f) :: rest => modify (set_single_shots rest) ;;; run_slot f
       | [] => ret tt
       end
   | loader_exited env =>
       if is_alive (thread (swapper self)) then
         let '(loaded, records) := run_loader env (swapper self) in
         modify (set_swapper loaded) ;;;
         for_each records emit_log
       else ret tt
   | close_requested => closeEvent
   end)%py.

(** The window after the events [evs], delivered in order, each handled
    to completion; a slot that raised would end the run.  (A tick that Qt
    delivers while a handler is still inside a modal box is a call of
    [update_frame] on the window as that handler left it, lock included.) *)
Definition run (evs : list event) : PyM FaceSwapUI unit :=
  for_each evs dispatch.

(** *** Program entry *)

Record Process : Type :=
  { shown : list QMessageBox;     (* modal boxes shown to the user *)
    exit_status : Z }.

(** The [__main__] block, once [QApplication(sys.argv)] exists.
    [construct] is what [FaceSwapUI()] does; [exec_] is what [app.exec_()]
    does once the window is shown.  [sys.exit] raises [SystemExit], which is
    not an [Exception]: [sys.exit(app.exec_())] leaves the [try] with the
    status of the event loop, and the handler's [sys.exit(1)] ends the
    process with status 1 after its box was shown. *)
Definition main (construct : outcome FaceSwapUI)
    (exec_ : FaceSwapUI -> outcome Z) : Process :=
  let startup_failed (e : exn) :=
    {| shown := [{| box_icon := Critical; box_title := "错误";
                    box_text := "启动失败: " ++ str e |}];
       exit_status := 1 |} in
  match construct with
  | Return window =>
      match exec_ window with
      | Return status => {| shown := []; exit_status := status |}
      | Raise e => startup_failed e
      end
  | Raise e => startup_failed e
  end.

(** *** Predicates used in the statements *)

(** The camera is capturing: the capture device is open and the frame
    timer is running. *)
Definition camera_enabled (self : FaceSwapUI) : bool :=
  match cap self, timer self with
  | Some c, Some t => isOpened c && isActive t
  | _, _ => false
  end.

(** The selection invariant: every name listed in the selection box is a
    key of [src_images], and the current index is [-1] for an empty box and
    the index of a listed name otherwise. *)
Definition selection_ok (self : FaceSwapUI) : Prop :=
  (forall name, name ∈ items (source_combo self) ->
                is_Some (src_images self !! name))
  /\ ((items (source_combo self) = [] /\ currentIndex (source_combo self) = -1)
      \/ (0 <= currentIndex (source_combo self) < count (source_combo self))%Z).

(** The part of the window that the camera handlers own. *)
Definition camera_part (self : FaceSwapUI) :=
  (is_running self, cap self, timer self).

(** The part of the window that the source-image handlers own. *)
Definition selection_part (self : FaceSwapUI) :=
  (src_images self, source_combo self).

(** The events whose slots start or stop the camera. *)
Definition is_camera_event (ev : event) : bool :=
  match ev with
  | start_clicked _ | close_requested => true
  | _ => false
  end.

(** *** Invariants of the window *)

Definition capture_open (self : FaceSwapUI) : bool :=
  match cap self with Some c => isOpened c | None => false end.

Definition timer_running (self : FaceSwapUI) : bool :=
  match timer self with Some t => isActive t | None => false end.

(** The resolution box as [init_ui] fills it, with one of its rows chosen. *)
Definition resolution_ok (self : FaceSwapUI) : Prop :=
  items (resolution_combo self) = ["640x480"; "1280x720"; "1920x1080"]
  /\ (0 <= currentIndex (resolution_combo self) < 3)%Z.

(** The capture is open exactly while the frame timer runs, and only while
    [is_running] is set. *)
Definition camera_ok (self : FaceSwapUI) : Prop :=
  capture_open self = timer_running self
  /\ (capture_open self = true -> is_running self = true)
  /\ resolution_ok self.

(** The lock is free, and every call of [swap_face] so far was made while
    it was held. *)
Definition lock_ok (self : FaceSwapUI) : Prop :=
  locked (lock self) = false
  /\ Forall (fun c => call_locked c = true) (swap_calls self).

(** One poll of the loader is pending for as long as the loading label is
    shown; the label is hidden, with the progress bar, only after the
    loader thread has finished, and then no poll is left. *)
Definition poll_ok (self : FaceSwapUI) : Prop :=
  match single_shots self with
  | [] => is_alive (thread (swapper self)) = false
          /\ label_hidden (loading_label self) = true
          /\ bar_hidden (progress_bar self) = true
  | [(_, init_camera_slot)] => label_hidden (loading_label self) = false
  | _ => False
  end.

(** A source image is held exactly when the selection box lists a name. *)
Definition source_ok (self : FaceSwapUI) : Prop :=
  selection_ok self
  /\ (src_img self = None <-> items (source_combo self) = []).

(** The FPS label shows the value of [fps]; the counters are not negative. *)
Definition fps_ok (self : FaceSwapUI) : Prop :=
  text (fps_label self) = "FPS: " ++ pretty (fps self)
  /\ (0 <= fps self)%Z /\ (0 <= frame_count self)%Z.

(** The box [handle_log] opens for a record, if it opens one. *)
Definition error_box (record : LogRecord) : option QMessageBox :=
  match lr_level record with
  | ERROR =>
      Some {| box_icon := Warning; box_title := "警告";
              box_text := "ERROR: " ++ lr_message record |}
  | _ => None
  end.


End Window.

Arguments QPixmap : clear implicits.
Arguments QLabel : clear implicits.
Arguments SwapCall : clear implicits.
Arguments FaceSwapUI : clear implicits.
Arguments event : clear implicits.

End gui.

(** ** Sample collaborators

    Concrete stand-ins for the two models, over images and faces numbered
    by integers: image [0] shows no face, image [n] shows the face [n]; the
    swap model returns the target image shifted by the source face. *)

Module samples.

Import face_swap.

Definition detector : FaceAnalysis Z Z :=
  {| fa_get := fun img => Return (if (img =? 0)%Z then [] else [img]) |}.

Definition broken_detector : FaceAnalysis Z Z :=
  {| fa_get := fun _ => Raise (Exception "RuntimeError" "inference failed") |}.

Definition inswapper : INSwapper Z Z :=
  {| sw_get := fun img target source paste_back =>
                 Return (Some (img + 1000 * source)%Z) |}.

Definition loading : FaceSwapper Z Z := face_swap.__init__.

Definition loaded : FaceSwapper Z Z :=
  {| app := Some detector; swapper := Some inswapper;
     thread := {| is_alive := false |} |}.

Definition loaded_broken : FaceSwapper Z Z :=
  {| app := Some broken_detector; swapper := Some inswapper;
     thread := {| is_alive := false |} |}.

(** A window just constructed, at time [0.0]. *)
Definition fresh : gui.FaceSwapUI Z Z := gui.__init__ 0%float.

(** A window whose loader has finished with both sample models, with source
    image [3] selected and the camera running. *)
Definition capturing : gui.FaceSwapUI Z Z :=
  gui.set_swapper loaded
    (gui.set_src_img (Some 3)
       (gui.set_cap (Some {| gui.isOpened := true;
                             gui.CAP_PROP_FRAME_WIDTH := Some 640;
                             gui.CAP_PROP_FRAME_HEIGHT := Some 480 |})
          (gui.set_timer (Some {| gui.isActive := true; gui.interval := 30 |})
             fresh))).

(** The same window while another tick holds the lock. *)
Definition capturing_busy : gui.FaceSwapUI Z Z :=
  gui.set_lock {| gui.locked := true |} capturing.

(** Three runs of the loader: all steps succeed; the model file is missing;
    preparing the detection model raises. *)
Definition env_ok : face_swap.LoadEnv Z Z :=
  {| new_FaceAnalysis := Return detector;
     prepare := Return tt;
     model_path := "/home/me/.insightface/models/inswapper_128.onnx";
     path_exists := true;
     get_model := Return inswapper |}.

Definition env_missing : face_swap.LoadEnv Z Z :=
  {| new_FaceAnalysis := Return detector;
     prepare := Return tt;
     model_path := "/home/me/.insightface/models/inswapper_128.onnx";
     path_exists := false;
     get_model := Return inswapper |}.

Definition env_broken : face_swap.LoadEnv Z Z :=
  {| new_FaceAnalysis := Return detector;
     prepare := Raise (Exception "RuntimeError" "no provider");
     model_path := "/home/me/.insightface/models/inswapper_128.onnx";
     path_exists := true;
     get_model := Return inswapper |}.

(** The capturing window while the models are still loading, with a
    wrapper that lost its swap model, and with detection switched off. *)
Definition capturing_while_loading : gui.FaceSwapUI Z Z :=
  gui.set_swapper loading capturing.

Definition capturing_without_model : gui.FaceSwapUI Z Z :=
  gui.set_swapper
    {| app := Some detector; swapper := None;
       thread := {| is_alive := false |} |} capturing.

Definition capturing_detection_off : gui.FaceSwapUI Z Z :=
  gui.set_face_detection_check {| gui.isChecked := false |} capturing.

(** A window whose camera button was clicked once: nothing runs. *)
Definition stopped : gui.FaceSwapUI Z Z :=
  (gui.toggle_camera (Return true) fresh).2.


End samples.

(** * Properties of the model wrapper *)

Section WrapperProperties.
Context {Image Face : Type}.
Import face_swap.

Implicit Types (self : FaceSwapper Image Face) (src_img dst_img : Image).
Implicit Types (l : Log).

(** Whatever happens, [swap_face] hands back either the target image or what
    the swap model returned. *)
Lemma swap_face_cases self src_img dst_img l :
  (exists l', swap_face self src_img dst_img l = (Return (Some dst_img), l'))
  \/ (exists the_swapper d s r,
        swapper self = Some the_swapper
        /\ sw_get the_swapper dst_img d s true = Return r
        /\ swap_face self src_img dst_img l = (Return r, l)).
Proof.
  unfold swap_face, logger_emit. unfold_py.
  destruct (is_alive (thread self)); [left; eauto|].
  destruct (swapper self) as [sw|]; [|left; eauto].
  destruct (app self) as [ap|]; [|left; eauto].
  destruct (fa_get ap src_img) as [[|s sf]|e]; simpl;
    destruct (fa_get ap dst_img) as [[|d df]|e']; simpl; try (left; eauto; fail).
  destruct (sw_get sw dst_img d s true) as [r|e] eqn:Hget; [|left; eauto].
  right. exists sw, d, s, r. auto.
Qed.

(** When the loader thread has exited, either both models are set, the ones
    the library calls returned, or the swap model is missing (and the
    detection model too if a call raised). *)
Lemma run_loader_outcomes (env : LoadEnv Image Face) :
  is_alive (thread (run_loader env __init__).1) = false
  /\ ((exists a m,
         new_FaceAnalysis env = Return a /\ get_model env = Return m
         /\ app (run_loader env __init__).1 = Some a
         /\ swapper (run_loader env __init__).1 = Some m)
      \/ swapper (run_loader env __init__).1 = None).
Proof.
  split; [reflexivity|].
  unfold run_loader, _load_models, logger_emit. unfold_py.
  destruct (new_FaceAnalysis env) as [a|e]; simpl; [|right; reflexivity].
  destruct (prepare env) as [[]|e]; simpl; [|right; reflexivity].
  destruct (path_exists env); simpl; [|right; reflexivity].
  destruct (get_model env) as [m|e]; simpl; [|right; reflexivity].
  left. exists a, m. repeat split.
Qed.

(** C1. [swap_face] returns the target image itself when the loader thread
    is still running, when either model is missing, or when detection finds
    no face in the source image or none in the target image. *)
Theorem swap_face_returns_target_when_not_ready self src_img dst_img l :
  is_alive (thread self) = true
  \/ app self = None
  \/ swapper self = None
  \/ (exists a, app self = Some a /\ fa_get a src_img = Return [])
  \/ (exists a, app self = Some a /\ fa_get a dst_img = Return []) ->
  (swap_face self src_img dst_img l).1 = Return (Some dst_img).
Proof.
  intros H. unfold swap_face. unfold_py.
  destruct (is_alive (thread self)) eqn:Halive; [reflexivity|].
  destruct (swapper self) as [sw|] eqn:Hsw; [|reflexivity].
  destruct (app self) as [ap|] eqn:Hap; [|reflexivity].
  destruct H as [H|[H|[H|[(a & Ha & Hsrc)|(a & Ha & Hdst)]]]]; try discriminate.
  - injection Ha as <-. rewrite Hsrc.
    destruct (fa_get ap dst_img); reflexivity.
  - injection Ha as <-. rewrite Hdst.
    destruct (fa_get ap src_img) as [[|s sf]|e]; reflexivity.
Qed.

(** C2. [swap_face] never raises: every call returns normally; and when the
    detection call or the swap-model call raises [e], the error is logged and
    the original target image is returned. *)
Theorem swap_face_never_raises self src_img dst_img l :
  returns (swap_face self src_img dst_img l).1 = true
  /\ forall the_app the_swapper e,
       is_alive (thread self) = false ->
       app self = Some the_app ->
       swapper self = Some the_swapper ->
       fa_get the_app src_img = Raise e
       \/ (exists src_faces,
             fa_get the_app src_img = Return src_faces
             /\ fa_get the_app dst_img = Raise e)
       \/ (exists s src_faces d dst_faces,
             fa_get the_app src_img = Return (s :: src_faces)
             /\ fa_get the_app dst_img = Return (d :: dst_faces)
             /\ sw_get the_swapper dst_img d s true = Raise e) ->
       swap_face self src_img dst_img l
       = (Return (Some dst_img),
          (l ++ [{| lr_level := ERROR;
                    lr_message := "换脸过程中出错: " ++ str e |}])%list).
Proof.
  split.
  - destruct (swap_face_cases self src_img dst_img l)
      as [[l' ->]|(sw & d & s & r & _ & _ & ->)]; reflexivity.
  - intros ap sw e Halive Hap Hsw H.
    unfold swap_face, logger_emit. unfold_py. rewrite Halive, Hsw, Hap.
    destruct H as [H|[(sf & Hs & Hd)|(s & sf & d & df & Hs & Hd & Hget)]].
    + rewrite H. reflexivity.
    + rewrite Hs, Hd. reflexivity.
    + rewrite Hs, Hd. simpl. rewrite Hget. reflexivity.
Qed.

(** C3. With both models loaded (the loader thread has finished and left
    [app] and [swapper] set) and at least one face detected in each image,
    the result is what the swap model returns for the target image, the
    first target face and the first source face, pasted back, and nothing is
    logged; should the swap model raise instead, the target image is
    returned and the error logged. *)
Theorem swap_face_composites_first_faces self src_img dst_img l
    the_app the_swapper s src_faces d dst_faces :
  is_alive (thread self) = false ->
  app self = Some the_app ->
  swapper self = Some the_swapper ->
  fa_get the_app src_img = Return (s :: src_faces) ->
  fa_get the_app dst_img = Return (d :: dst_faces) ->
  swap_face self src_img dst_img l
  = match sw_get the_swapper dst_img d s true with
    | Return result => (Return result, l)
    | Raise e =>
        (Return (Some dst_img),
         (l ++ [{| lr_level := ERROR;
                   lr_message := "换脸过程中出错: " ++ str e |}])%list)
    end.
Proof.
  intros Halive Hap Hsw Hs Hd.
  unfold swap_face, logger_emit. unfold_py.
  rewrite Halive, Hsw, Hap, Hs, Hd. simpl.
  destruct (sw_get the_swapper dst_img d s true); reflexivity.
Qed.

(** ** The loader thread *)

(** A loading step that raises leaves the wrapper with neither model, even
    when the detection model had already been assigned: [_load_models]
    returns normally, everything logged before the failure is at INFO level,
    and the last record is the ERROR carrying the message of the
    exception. *)
Theorem load_models_failure_clears_both (env : LoadEnv Image Face) self l e :
  new_FaceAnalysis env = Raise e
  \/ (exists a, new_FaceAnalysis env = Return a /\ prepare env = Raise e)
  \/ (exists a, new_FaceAnalysis env = Return a /\ prepare env = Return tt
                /\ path_exists env = true /\ get_model env = Raise e) ->
  exists before,
    _load_models env (self, l)
    = (Return tt,
       ({| app := None; swapper := None; thread := thread self |},
        (l ++ before
           ++ [{| lr_level := ERROR;
                  lr_message := "模型加载失败: " ++ str e |}])%list))
    /\ Forall (fun r => lr_level r = INFO) before.
Proof.
  intros H. unfold _load_models, logger_emit, put_log, upd_self. unfold_py.
  destruct H as [H|[(a & Ha & Hp)|(a & Ha & Hp & Hex & Hget)]]; simpl.
  - rewrite H. simpl. eexists [_]. rewrite <- app_assoc.
    split; [reflexivity|repeat constructor].
  - rewrite Ha. simpl. rewrite Hp. simpl. eexists [_]. rewrite <- app_assoc.
    split; [reflexivity|repeat constructor].
  - rewrite Ha. simpl. rewrite Hp. simpl. rewrite Hex. simpl.
    rewrite Hget. simpl. eexists [_; _; _]. rewrite <- !app_assoc.
    split; [reflexivity|repeat constructor].
Qed.

(** A missing model file is not an exception: the detection model stays
    loaded, the swap model is left as it was, [model_zoo.get_model] is not
    called (its result plays no part), and the ERROR names the path. *)
Theorem load_models_missing_file (env : LoadEnv Image Face) self l a :
  new_FaceAnalysis env = Return a ->
  prepare env = Return tt ->
  path_exists env = false ->
  _load_models env (self, l)
  = (Return tt,
     ({| app := Some a; swapper := swapper self; thread := thread self |},
      (l ++ [{| lr_level := INFO; lr_message := "开始加载人脸检测模型..." |};
             {| lr_level := INFO; lr_message := "人脸检测模型加载完成" |};
             {| lr_level := ERROR;
                lr_message := "模型文件不存在: " ++ model_path env |}])%list)).
Proof.
  intros Ha Hp Hex.
  unfold _load_models, logger_emit, put_log, upd_self. unfold_py. simpl.
  rewrite Ha. simpl. rewrite Hp. simpl. rewrite Hex. simpl.
  rewrite <- !app_assoc. reflexivity.
Qed.

(** Loading and swapping composed.  Once the loader thread has exited
    without both models (a step raised, or the model file is missing), every
    call of [swap_face] returns the target image and logs the one ERROR
    "models not loaded"; the detection model, even if loaded, is not
    consulted. *)
Theorem swap_face_after_failed_loading (env : LoadEnv Image Face)
    src_img dst_img l :
  (exists e, new_FaceAnalysis env = Raise e)
  \/ (exists e, prepare env = Raise e)
  \/ path_exists env = false
  \/ (exists e, get_model env = Raise e) ->
  swap_face (run_loader env __init__).1 src_img dst_img l
  = (Return (Some dst_img),
     (l ++ [{| lr_level := ERROR; lr_message := "模型未正确加载" |}])%list).
Proof.
  intros H.
  assert (Hnone : swapper (run_loader env __init__).1 = None).
  { unfold run_loader, _load_models, logger_emit, put_log, upd_self.
    unfold_py. simpl.
    destruct (new_FaceAnalysis env) as [a|e0]; simpl; [|reflexivity].
    destruct (prepare env) as [[]|e1]; simpl; [|reflexivity].
    destruct (path_exists env); simpl; [|reflexivity].
    destruct (get_model env) as [m|e2]; simpl; [|reflexivity].
    destruct H as [[e H]|[[e H]|[H|[e H]]]]; discriminate. }
  unfold swap_face, logger_emit. unfold_py.
  change (is_alive (thread (run_loader env __init__).1)) with false.
  cbv iota. rewrite Hnone. reflexivity.
Qed.

(** When every loading step succeeds the wrapper holds the two models the
    library returned, the thread is over, and four INFO records were
    logged. *)
Theorem load_models_success (env : LoadEnv Image Face) a m :
  new_FaceAnalysis env = Return a ->
  prepare env = Return tt ->
  path_exists env = true ->
  get_model env = Return m ->
  run_loader env __init__
  = ({| app := Some a; swapper := Some m; thread := {| is_alive := false |} |},
     [{| lr_level := INFO; lr_message := "开始加载人脸检测模型..." |};
      {| lr_level := INFO; lr_message := "人脸检测模型加载完成" |};
      {| lr_level := INFO; lr_message := "开始加载换脸模型..." |};
      {| lr_level := INFO; lr_message := "换脸模型加载完成" |}]).
Proof.
  intros Ha Hp Hex Hget.
  unfold run_loader, _load_models, logger_emit, put_log, upd_self.
  unfold_py. simpl.
  rewrite Ha. simpl. rewrite Hp. simpl. rewrite Hex. simpl. rewrite Hget.
  reflexivity.
Qed.

(** ** What [swap_face] logs *)

(** [swap_face] keeps what was logged before and adds at most one record per
    call; it adds none only when the result is what the swap model returned. *)
Theorem swap_face_logs_at_most_one_record self src_img dst_img l :
  exists records,
    (swap_face self src_img dst_img l).2 = (l ++ records)%list
    /\ (length records <= 1)%nat
    /\ (records = [] ->
        exists the_swapper d s result,
          swapper self = Some the_swapper
          /\ sw_get the_swapper dst_img d s true = Return result
          /\ (swap_face self src_img dst_img l).1 = Return result).
Proof.
  unfold swap_face, logger_emit, log. unfold_py.
  destruct (is_alive (thread self));
    [eexists [_]; repeat split; [simpl; lia|discriminate]|].
  destruct (swapper self) as [sw|];
    [|eexists [_]; repeat split; [simpl; lia|discriminate]].
  destruct (app self) as [ap|];
    [|eexists [_]; repeat split; [simpl; lia|discriminate]].
  destruct (fa_get ap src_img) as [[|s sf]|e]; simpl;
    destruct (fa_get ap dst_img) as [[|d df]|e']; simpl;
    try (eexists [_]; repeat split; [simpl; lia|discriminate]).
  destruct (sw_get sw dst_img d s true) as [r|e] eqn:Hget;
    [|eexists [_]; repeat split; [simpl; lia|discriminate]].
  exists []. rewrite app_nil_r. repeat split; [simpl; lia|].
  intros _. exists sw, d, s, r. auto.
Qed.

(** When detection returns for both images and finds no face in one of
    them, the target image is returned with one WARNING; the source image is
    tested first, so with no face in either the warning is about the
    source. *)
Theorem swap_face_warns_about_missing_face self src_img dst_img l
    the_app the_swapper src_faces dst_faces :
  is_alive (thread self) = false ->
  app self = Some the_app ->
  swapper self = Some the_swapper ->
  fa_get the_app src_img = Return src_faces ->
  fa_get the_app dst_img = Return dst_faces ->
  src_faces = [] \/ dst_faces = [] ->
  swap_face self src_img dst_img l
  = (Return (Some dst_img),
     (l ++ [{| lr_level := WARNING;
               lr_message := match src_faces with
                             | [] => "源图片中未检测到人脸"
                             | _ :: _ => "目标图片中未检测到人脸"
                             end |}])%list).
Proof.
  intros Halive Hap Hsw Hs Hd Hempty.
  unfold swap_face, logger_emit, log. unfold_py.
  rewrite Halive, Hap, Hsw, Hs, Hd.
  destruct src_faces as [|s sf]; [reflexivity|].
  destruct Hempty as [Hempty|Hempty]; [discriminate|].
  rewrite Hempty. reflexivity.
Qed.


End WrapperProperties.

(** C1, at the sample wrapper: while loading, and with a source image that
    shows no face. *)
Lemma swap_face_returns_target_when_not_ready_witness :
  (face_swap.swap_face samples.loading 7 9 []).1 = Return (Some 9)
  /\ (face_swap.swap_face samples.loaded 0 9 []).1 = Return (Some 9).
Proof.
  split; apply swap_face_returns_target_when_not_ready.
  - left. reflexivity.
  - right; right; right; left.
    exists samples.detector. split; reflexivity.
Defined.

(** C2, at a wrapper whose detector raises. *)
Lemma swap_face_never_raises_witness :
  face_swap.swap_face samples.loaded_broken 7 9 []
  = (Return (Some 9),
     [{| face_swap.lr_level := face_swap.ERROR;
         face_swap.lr_message := "换脸过程中出错: inference failed" |}]).
Proof.
  apply (proj2 (swap_face_never_raises samples.loaded_broken 7 9 [])
           samples.broken_detector samples.inswapper
           (Exception "RuntimeError" "inference failed"));
    try reflexivity.
  left. reflexivity.
Defined.

(** C3, at the sample wrapper: face 3 pasted onto image 5. *)
Lemma swap_face_composites_first_faces_witness :
  face_swap.swap_face samples.loaded 3 5 [] = (Return (Some 3005), []).
Proof.
  apply (swap_face_composites_first_faces samples.loaded 3 5 []
           samples.detector samples.inswapper 3 [] 5 []);
    reflexivity.
Defined.

(** * Frame rules for the control-flow combinators *)

Section Frames.
Context {S T : Type} (proj : S -> T).

Lemma keeps_ret {A} (a : A) : keeps proj (ret a).
Proof. intros s. reflexivity. Qed.

Lemma keeps_raise {A} e : keeps proj (@raise S A e).
Proof. intros s. reflexivity. Qed.

Lemma keeps_call {A} (o : outcome A) : keeps proj (call o).
Proof. intros s. reflexivity. Qed.

Lemma keeps_get : keeps proj get.
Proof. intros s. reflexivity. Qed.

Lemma keeps_modify f : (forall s, proj (f s) = proj s) -> keeps proj (modify f).
Proof. intros H s. apply H. Qed.

Lemma keeps_index {A} (l : list A) i : keeps proj (index l i).
Proof. intros s. unfold index. destruct (l !! i); reflexivity. Qed.

Lemma keeps_bind {A B} (m : PyM S A) (k : A -> PyM S B) :
  keeps proj m -> (forall a, keeps proj (k a)) -> keeps proj (bind m k).
Proof.
  intros Hm Hk s. unfold bind. specialize (Hm s).
  destruct (m s) as [[a|e] s']; simpl in *; [|exact Hm].
  rewrite Hk. exact Hm.
Qed.

Lemma keeps_try_except {A} (body : PyM S A) handler :
  keeps proj body -> (forall e, keeps proj (handler e)) ->
  keeps proj (try_except body handler).
Proof.
  intros Hb Hh s. unfold try_except. specialize (Hb s).
  destruct (body s) as [[a|e] s']; simpl in *; [exact Hb|].
  rewrite Hh. exact Hb.
Qed.

Lemma keeps_for_each {A} (xs : list A) body :
  (forall x, x ∈ xs -> keeps proj (body x)) -> keeps proj (for_each xs body).
Proof.
  induction xs as [|x xs IH]; intros H; simpl.
  - apply keeps_ret.
  - apply keeps_bind.
    + apply H. left.
    + intros _. apply IH. intros y Hy. apply H. right. exact Hy.
Qed.

(** A handler that returns makes the whole [try] return. *)
Lemma try_except_returns (body : PyM S unit) handler s :
  (forall e s', (handler e s').1 = Return tt) ->
  (try_except body handler s).1 = Return tt.
Proof.
  intros H. unfold try_except.
  destruct (body s) as [[[]|e] s']; [reflexivity|apply H].
Qed.

End Frames.

Lemma keeps_pair_l {S A T U} (p : S -> T) (q : S -> U) (m : PyM S A) :
  keeps (fun s => (p s, q s)) m -> keeps p m.
Proof. intros H s. specialize (H s). congruence. Qed.

Lemma keeps_pair_r {S A T U} (p : S -> T) (q : S -> U) (m : PyM S A) :
  keeps (fun s => (p s, q s)) m -> keeps q m.
Proof. intros H s. specialize (H s). congruence. Qed.

(** Walks through a method built from the combinators, closing each
    assignment to another field by computation. *)
Ltac keeps_step :=
  first
    [ apply keeps_ret | apply keeps_raise | apply keeps_call | apply keeps_get
    | apply keeps_index
    | apply keeps_modify; intros; reflexivity
    | apply keeps_bind; [|intros]
    | apply keeps_try_except; [|intros]
    | match goal with
      | |- keeps _ (if ?b then _ else _) => destruct b
      | |- keeps _ (match ?x with _ => _ end) => destruct x
      | |- keeps _ (let '(_, _) := ?x in _) => destruct x
      | |- keeps _ (let _ := _ in _) => cbv zeta
      end
    | assumption ].
Ltac keeps_auto := repeat keeps_step.

(** An invariant of every iteration is an invariant of the loop, whether it
    runs to the end or stops at a raise. *)
Lemma for_each_invariant {S A} (I : S -> Prop) (xs : list A)
    (body : A -> PyM S unit) :
  (forall x s, I s -> I (body x s).2) ->
  forall s, I s -> I (for_each xs body s).2.
Proof.
  intros Hbody. induction xs as [|x xs IH]; intros s Hs; simpl.
  - exact Hs.
  - unfold bind. specialize (Hbody x s Hs).
    destruct (body x s) as [[[]|e] s']; simpl in *; [apply IH|]; exact Hbody.
Qed.


(** * Properties of the window *)

Section WindowProperties.
Context {Image Face : Type}.
Import face_swap gui.

Implicit Types (self : FaceSwapUI Image Face) (frame : Image).

Ltac unfold_gui :=
  unfold lock_acquire_nonblocking, lock_release, set_cam_status_text,
    set_cam_status_style, QMessageBox_critical, QMessageBox_warning, show_box,
    QTimer_singleShot, cap_set in *.

(** [self] is its own fields put together. *)
Lemma eta_self self : eta self = self.
Proof. destruct self; reflexivity. Qed.

(** *** Logging reaches the status bar and the message boxes only *)

Lemma emit_log_effect record self :
  exists bar boxes,
    emit_log record self
    = (Return tt, set_status_bar bar (set_dialogs boxes self)).
Proof.
  unfold emit_log, handle_log. unfold_gui. unfold_py.
  destruct record as [[] msg]; simpl; eexists _, _;
    rewrite <- (eta_self self) at 1; reflexivity.
Qed.

Lemma for_each_emit_log_effect records self :
  exists bar boxes,
    for_each records emit_log self
    = (Return tt, set_status_bar bar (set_dialogs boxes self)).
Proof.
  revert self. induction records as [|r rs IH]; intros self; simpl.
  - exists (status_bar self), (dialogs self).
    unfold ret. rewrite <- (eta_self self) at 1. reflexivity.
  - unfold bind. destruct (emit_log_effect r self) as (bar & boxes & ->).
    destruct (IH (set_status_bar bar (set_dialogs boxes self)))
      as (bar' & boxes' & ->).
    exists bar', boxes'. reflexivity.
Qed.

(** The window's call of [swap_face] returns normally, notes the call with
    the state of the lock, and otherwise changes the status bar and the
    boxes only. *)
Lemma call_swap_face_effect src frame self :
  exists result bar boxes,
    call_swap_face src frame self
    = (Return result,
       set_status_bar bar
         (set_dialogs boxes
            (set_swap_calls
               (swap_calls self ++
                  [{| call_src := src; call_dst := frame;
                      call_locked := locked (lock self) |}])%list self)))
    /\ (swap_face (swapper self) src frame []).1 = Return result.
Proof.
  unfold call_swap_face.
  destruct (swap_face_cases (swapper self) src frame [])
    as [[l' Heq]|(sw & d & s & r & _ & _ & Heq)]; rewrite Heq;
    match goal with
    | |- context [for_each ?records emit_log ?st] =>
        destruct (for_each_emit_log_effect records st) as (bar & boxes & ->)
    end;
    eexists _, bar, boxes; split; reflexivity.
Qed.

(** Splits [update_frame] into its paths: no capture, capture closed, no
    frame read, and, for a frame read, the lock held or free, detection on
    or off, a source image chosen or not, and the swap result. *)
Ltac update_frame_paths self read :=
  unfold update_frame; unfold_gui; unfold_py;
  destruct (cap self) as [?c|] eqn:?Hcap; [|simpl];
  [destruct (isOpened c) eqn:?Hopen; simpl;
   [destruct read as [?frame|]; simpl;
    [destruct (PrimFloat.leb _ _); simpl;
     (destruct (lock self) as [[]] eqn:?Hlock; simpl;
      [|destruct (isChecked (face_detection_check self)) eqn:?Hcheck;
        destruct (src_img self) as [?src|] eqn:?Hsrc; simpl;
        try match goal with
          | |- context [call_swap_face ?a ?b ?st] =>
              let result := fresh "result" in
              destruct (call_swap_face_effect a b st)
                as (result & ?bar & ?boxes & -> & ?Hresult);
              destruct result as [?swapped|]; simpl
          end])
    |]
   |]
  |].

(** C10. When the capture object is absent, or not open, or the read is
    unsuccessful, [update_frame] returns at once and leaves the window as it
    was: [fps], [frame_count], [last_time], the camera status text and the
    displayed pixmap included. *)
Theorem update_frame_returns_early self read current_time :
  cap self = None
  \/ (exists c, cap self = Some c /\ isOpened c = false)
  \/ read = None ->
  update_frame read current_time self = (Return tt, self).
Proof.
  intros H. unfold update_frame. unfold_py.
  destruct (cap self) as [c|]; [|reflexivity].
  destruct (isOpened c) eqn:Hopen; [|reflexivity]. simpl.
  destruct H as [H|[(c' & Hc & Hclosed)| ->]]; [discriminate| |reflexivity].
  injection Hc as <-. congruence.
Qed.

(** C4. [update_frame] calls [swap_face] only with the lock held: every call
    it notes was made under the lock; it always returns, and leaves the lock
    as it found it.  On a tick that finds the lock taken it makes no call of
    [swap_face], leaves the camera status as it was, arms no timer, and
    shows the raw frame. *)
Theorem update_frame_swaps_only_under_lock self read current_time :
  (exists calls,
     swap_calls (update_frame read current_time self).2
     = (swap_calls self ++ calls)%list
     /\ Forall (fun c => call_locked c = true) calls)
  /\ (update_frame read current_time self).1 = Return tt
  /\ lock (update_frame read current_time self).2 = lock self
  /\ (locked (lock self) = true ->
      swap_calls (update_frame read current_time self).2 = swap_calls self
      /\ cam_status (update_frame read current_time self).2 = cam_status self
      /\ single_shots (update_frame read current_time self).2
         = single_shots self
      /\ forall c frame,
           cap self = Some c -> isOpened c = true -> read = Some frame ->
           pixmap (cam_label (update_frame read current_time self).2)
           = Some (scaled (fromImage frame) 800 600)).
Proof.
  split; [|split; [|split]].
  - update_frame_paths self read;
      first [ exists []; rewrite app_nil_r; split; [reflexivity|constructor]
            | eexists [_]; split; [reflexivity|repeat constructor] ].
  - update_frame_paths self read; reflexivity.
  - update_frame_paths self read; congruence.
  - intros Hheld.
    update_frame_paths self read; try discriminate;
      repeat apply conj; try reflexivity; try congruence;
      intros c' frame' Hc Ho Hr; try congruence;
      injection Hr as <-; reflexivity.
Qed.

(** C6. [stop_camera] returns normally; afterwards the capture device, if
    there is one, is released, the timer, if there is one, is stopped, and
    [is_running] is [False]. *)
Theorem stop_camera_releases_and_halts self :
  (stop_camera self).1 = Return tt
  /\ cap (stop_camera self).2 = release <$> cap self
  /\ (forall c, cap (stop_camera self).2 = Some c -> isOpened c = false)
  /\ timer (stop_camera self).2 = timer_stop <$> timer self
  /\ (forall t, timer (stop_camera self).2 = Some t -> isActive t = false)
  /\ is_running (stop_camera self).2 = false.
Proof.
  unfold stop_camera. unfold_py.
  destruct (cap self) as [[[] w h]|] eqn:Hcap;
    destruct (timer self) as [t|] eqn:Htimer; simpl;
    rewrite ?Hcap, ?Htimer; repeat apply conj; try reflexivity;
    intros x Hx; inversion Hx; reflexivity.
Qed.

(** *** What each handler leaves alone *)

Lemma for_each_emit_log_keeps records :
  keeps (fun self => (camera_part self, selection_part self))
        (for_each records (@emit_log Image Face)).
Proof.
  intros self.
  destruct (for_each_emit_log_effect records self) as (bar & boxes & ->).
  reflexivity.
Qed.

Lemma change_source_image_keeps index :
  keeps (fun self => (camera_part self, selection_part self))
        (@change_source_image Image Face index).
Proof. unfold change_source_image. keeps_auto. Qed.

Lemma source_combo_addItem_keeps name :
  keeps (@camera_part Image Face) (source_combo_addItem name).
Proof.
  unfold source_combo_addItem. keeps_auto.
Qed.

Lemma add_source_image_keeps accepted files :
  keeps (@camera_part Image Face) (add_source_image accepted files).
Proof.
  unfold add_source_image. destruct accepted; [|apply keeps_ret].
  apply keeps_for_each. intros [file imread] _.
  unfold add_source_image_file. unfold_gui. keeps_auto.
Qed.

Lemma init_camera_keeps :
  keeps (fun self => (camera_part self, selection_part self))
        (@init_camera Image Face).
Proof. unfold init_camera. unfold_gui. keeps_auto. Qed.

Lemma update_frame_keeps read current_time :
  keeps (fun self => (camera_part self, selection_part self))
        (@update_frame Image Face read current_time).
Proof.
  intros self. unfold camera_part, selection_part.
  update_frame_paths self read; rewrite ?Hcap; reflexivity.
Qed.

Lemma update_frame_returns read current_time self :
  (update_frame read current_time self).1 = Return tt.
Proof. update_frame_paths self read; reflexivity. Qed.

Lemma stop_camera_keeps : keeps (@selection_part Image Face) stop_camera.
Proof. unfold stop_camera. keeps_auto. Qed.

Lemma stop_camera_returns self : (stop_camera self).1 = Return tt.
Proof.
  unfold stop_camera. unfold_py.
  destruct (cap self) as [[[]]|]; destruct (timer self); reflexivity.
Qed.

Lemma start_camera_keeps device :
  keeps (@selection_part Image Face) (start_camera device).
Proof. unfold start_camera. unfold_gui. keeps_auto. Qed.

Lemma start_camera_returns device self :
  (start_camera device self).1 = Return tt.
Proof. apply try_except_returns. reflexivity. Qed.

Lemma toggle_camera_keeps device :
  keeps (@selection_part Image Face) (toggle_camera device).
Proof.
  unfold toggle_camera. unfold_gui. keeps_auto.
Qed.

Lemma toggle_camera_returns device self :
  (toggle_camera device self).1 = Return tt.
Proof.
  unfold toggle_camera. unfold_py. destruct (is_running self).
  - pose proof (stop_camera_returns self) as H.
    destruct (stop_camera self) as [[[]|e] s']; [reflexivity|discriminate].
  - pose proof (start_camera_returns device self) as H.
    destruct (start_camera device self) as [[[]|e] s']; [reflexivity|discriminate].
Qed.

Lemma dispatch_keeps_camera ev :
  is_camera_event ev = false -> keeps (@camera_part Image Face) (dispatch ev).
Proof.
  intros Hev. unfold dispatch.
  apply keeps_bind; [apply keeps_get|intros self].
  destruct ev; try discriminate.
  - apply add_source_image_keeps.
  - keeps_auto.
  - keeps_auto.
  - keeps_auto.
  - destruct (timer self) as [t|]; [destruct (isActive t)|];
      try apply keeps_ret.
    eapply keeps_pair_l, update_frame_keeps.
  - destruct (single_shots self) as [|[msec []] rest]; [apply keeps_ret|].
    apply keeps_bind; [apply keeps_modify; reflexivity|intros _].
    eapply keeps_pair_l, init_camera_keeps.
  - destruct (is_alive _); [|apply keeps_ret].
    destruct (run_loader _ _) as [loaded records].
    apply keeps_bind; [apply keeps_modify; reflexivity|intros _].
    eapply keeps_pair_l, for_each_emit_log_keeps.
Qed.

Lemma run_keeps_camera evs :
  forallb (fun ev => negb (is_camera_event ev)) evs = true ->
  keeps (@camera_part Image Face) (run evs).
Proof.
  intros H. apply keeps_for_each. intros ev Hin.
  apply dispatch_keeps_camera.
  rewrite forallb_forall in H. apply negb_true_iff, H.
  apply list_elem_of_In. exact Hin.
Qed.

(** C9. A window is constructed with [is_running] set although no camera
    was started.  So, as long as the camera button was not clicked (and the
    window not closed) since construction, a click on it takes the stop
    branch of [toggle_camera]: [stop_camera] runs, the button is labelled
    with the start label, and no capture device is opened. *)
Theorem first_toggle_stops_camera now evs device :
  forallb (fun ev => negb (is_camera_event ev)) evs = true ->
  is_running (run evs (@__init__ Image Face now)).2 = true
  /\ cap (run evs (@__init__ Image Face now)).2 = None
  /\ timer (run evs (@__init__ Image Face now)).2 = None
  /\ toggle_camera device (run evs (__init__ now)).2
     = (Return tt,
        set_start_button {| button_text := "开始" |}
          (stop_camera (run evs (__init__ now)).2).2)
  /\ camera_part (toggle_camera device (run evs (__init__ now)).2).2
     = (false, None, None).
Proof.
  intros Hevs.
  pose proof (run_keeps_camera evs Hevs (__init__ now)) as Hkept.
  unfold camera_part in Hkept. simpl in Hkept.
  injection Hkept as Hrun Hcap Htimer.
  repeat apply conj; try assumption.
  - unfold toggle_camera. unfold_py. rewrite Hrun.
    pose proof (stop_camera_returns (run evs (__init__ now)).2) as Hret.
    destruct (stop_camera _) as [[[]|e] s']; [reflexivity|discriminate].
  - unfold toggle_camera, stop_camera, camera_part. unfold_py.
    rewrite Hrun, Hcap, Htimer. simpl. rewrite Hcap, Htimer. reflexivity.
Qed.

(** *** The selection invariant *)

Lemma selection_ok_kept self self' :
  selection_part self' = selection_part self ->
  selection_ok self -> selection_ok self'.
Proof.
  unfold selection_part, selection_ok. intros H.
  injection H as -> ->. auto.
Qed.

(** A current index within the box names a listed item. *)
Lemma currentText_listed (combo : QComboBox) :
  (0 <= currentIndex combo < count combo)%Z ->
  currentText combo ∈ items combo.
Proof.
  unfold currentText, itemText, count. intros [Hlo Hhi].
  destruct (Z.ltb_spec (currentIndex combo) 0) as [?|_]; [lia|].
  destruct (lookup_lt_is_Some_2 (items combo) (Z.to_nat (currentIndex combo)))
    as [name Hname]; [lia|].
  rewrite Hname. simpl. eapply list_elem_of_lookup_2. exact Hname.
Qed.

(** With the invariant, [change_source_image] finds the name it looks up. *)
Lemma change_source_image_ok index self :
  selection_ok self ->
  (change_source_image index self).1 = Return tt
  /\ selection_ok (change_source_image index self).2.
Proof.
  intros Hok. split.
  - destruct Hok as [Hkeys Hindex].
    unfold change_source_image. unfold_py.
    destruct ((index >=? 0)%Z && (index <? count (source_combo self))%Z)
      eqn:Hrange; [|reflexivity].
    apply andb_prop in Hrange as [Hlo Hhi].
    apply Z.geb_le in Hlo. apply Z.ltb_lt in Hhi.
    destruct Hindex as [[Hnil _]|Hin].
    { unfold count in Hhi. rewrite Hnil in Hhi. simpl in Hhi. lia. }
    destruct (Hkeys _ (currentText_listed _ Hin)) as [img ->]. reflexivity.
  - eapply selection_ok_kept; [|exact Hok].
    eapply (keeps_pair_r _ _ _ (change_source_image_keeps index)).
Qed.

(** Storing an image under [name] and then listing [name] keeps the
    invariant. *)
Lemma source_combo_addItem_ok name img self :
  selection_ok self ->
  (source_combo_addItem name
     (set_src_images (<[name := img]> (src_images self)) self)).1 = Return tt
  /\ selection_ok
       (source_combo_addItem name
          (set_src_images (<[name := img]> (src_images self)) self)).2.
Proof.
  intros [Hkeys Hindex].
  set (stored := set_src_images (<[name := img]> (src_images self)) self).
  assert (Hlisted : selection_ok
            (set_source_combo (addItem name (source_combo stored)).1 stored)).
  { unfold selection_ok, addItem, stored. simpl. split.
    - intros n Hn.
      assert (Hn' : n ∈ (items (source_combo self) ++ [name])%list)
        by (destruct (_ && _); exact Hn).
      apply lookup_insert_is_Some.
      destruct (decide (name = n)) as [|Hne]; [left; assumption|right].
      split; [assumption|]. apply Hkeys.
      apply elem_of_app in Hn' as [Hn'|Hn']; [exact Hn'|].
      apply list_elem_of_singleton in Hn'. congruence.
    - right.
      destruct ((currentIndex (source_combo self) <? 0)%Z
                && (count (source_combo self) =? 0)%Z) eqn:Hempty.
      + unfold count. simpl. rewrite length_app. simpl. lia.
      + unfold count in *. simpl. rewrite length_app. simpl.
        destruct Hindex as [[Hnil Hminus]|Hin]; [|lia].
        rewrite Hnil, Hminus in Hempty. discriminate. }
  unfold source_combo_addItem. unfold_py. fold stored.
  destruct (addItem name (source_combo stored)) as [combo [i|]]; simpl in *.
  - apply change_source_image_ok. exact Hlisted.
  - split; [reflexivity|exact Hlisted].
Qed.

Lemma add_source_image_file_ok file imread self :
  selection_ok self ->
  (add_source_image_file file imread self).1 = Return tt
  /\ selection_ok (add_source_image_file file imread self).2.
Proof.
  intros Hok. unfold add_source_image_file. unfold_gui. unfold_py.
  destruct imread as [[img|]|e]; simpl; [|split; [reflexivity|exact Hok]|].
  - destruct (source_combo_addItem_ok (basename file) img self Hok)
      as [Hret Hlisted].
    destruct (source_combo_addItem _ _) as [[[]|e] listed]; [|discriminate].
    simpl in Hlisted.
    destruct (Z.of_nat (size (src_images listed)) =? 1)%Z;
      [|split; [reflexivity|exact Hlisted]].
    destruct (change_source_image_ok 0 listed Hlisted) as [Hret' Hok'].
    destruct (change_source_image 0 listed) as [[[]|e] chosen];
      [|discriminate].
    split; [reflexivity|exact Hok'].
  - split; [reflexivity|].
    eapply selection_ok_kept; [|exact Hok]. reflexivity.
Qed.

Lemma add_source_image_ok accepted files self :
  selection_ok self ->
  (add_source_image accepted files self).1 = Return tt
  /\ selection_ok (add_source_image accepted files self).2.
Proof.
  unfold add_source_image.
  destruct accepted; [|intros Hok; split; [reflexivity|exact Hok]].
  revert self. induction files as [|[file imread] files IH]; intros self Hok.
  - split; [reflexivity|exact Hok].
  - simpl. unfold bind.
    destruct (add_source_image_file_ok file imread self Hok) as [Hret Hok'].
    destruct (add_source_image_file file imread self) as [[[]|e] self'];
      [|discriminate].
    apply IH. exact Hok'.
Qed.

Lemma init_camera_returns self : (init_camera self).1 = Return tt.
Proof.
  unfold init_camera. unfold_gui. unfold_py.
  destruct (is_alive _); reflexivity.
Qed.

(** A handler that returns and leaves the selection alone keeps the
    invariant. *)
Lemma untouched_selection_ok (m : PyM (FaceSwapUI Image Face) unit) self :
  keeps selection_part m -> (m self).1 = Return tt ->
  selection_ok self ->
  (m self).1 = Return tt /\ selection_ok (m self).2.
Proof.
  intros Hkeeps Hret Hok. split; [exact Hret|].
  eapply selection_ok_kept; [apply Hkeeps|exact Hok].
Qed.

Lemma dispatch_ok ev self :
  selection_ok self ->
  (dispatch ev self).1 = Return tt /\ selection_ok (dispatch ev self).2.
Proof.
  intros Hok.
  assert (Hkept : forall self', selection_part self' = selection_part self ->
                                selection_ok self')
    by (intros self' H; eapply selection_ok_kept; [exact H|exact Hok]).
  destruct ev as [accepted files|i|i| |device|read current_time| |env|];
    unfold dispatch; unfold_py; cbv beta iota.
  - apply add_source_image_ok. exact Hok.
  - unfold activate.
    destruct ((0 <=? i)%Z && (i <? count (source_combo self))%Z
              && negb (i =? currentIndex (source_combo self))%Z) eqn:Hrange.
    + apply change_source_image_ok.
      destruct Hok as [Hkeys _]. split; [exact Hkeys|right]. simpl.
      apply andb_prop in Hrange as [Hrange _].
      apply andb_prop in Hrange as [Hlo Hhi].
      apply Z.leb_le in Hlo. apply Z.ltb_lt in Hhi.
      unfold count in *. simpl. lia.
    + split; [reflexivity|]. apply Hkept. reflexivity.
  - split; [reflexivity|]. apply Hkept. reflexivity.
  - split; [reflexivity|]. apply Hkept. reflexivity.
  - apply untouched_selection_ok;
      [apply toggle_camera_keeps|apply toggle_camera_returns|exact Hok].
  - destruct (timer self) as [t|]; [destruct (isActive t)|];
      try (split; [reflexivity|exact Hok]).
    apply untouched_selection_ok; [|apply update_frame_returns|exact Hok].
    eapply keeps_pair_r, update_frame_keeps.
  - destruct (single_shots self) as [|[msec []] rest];
      [split; [reflexivity|exact Hok]|].
    apply (untouched_selection_ok init_camera);
      [|apply init_camera_returns|apply Hkept; reflexivity].
    eapply keeps_pair_r, init_camera_keeps.
  - destruct (is_alive _); [|split; [reflexivity|exact Hok]].
    destruct (run_loader _ _) as [loaded records].
    apply (untouched_selection_ok (for_each records emit_log));
      [| |apply Hkept; reflexivity].
    + eapply keeps_pair_r, for_each_emit_log_keeps.
    + match goal with
      | |- context [for_each records emit_log ?st] =>
          destruct (for_each_emit_log_effect records st) as (bar & boxes & ->)
      end. reflexivity.
  - apply untouched_selection_ok;
      [apply stop_camera_keeps|apply stop_camera_returns|exact Hok].
Qed.

Lemma run_ok evs self :
  selection_ok self ->
  (run evs self).1 = Return tt /\ selection_ok (run evs self).2.
Proof.
  unfold run. revert self.
  induction evs as [|ev evs IH]; intros self Hok.
  - split; [reflexivity|exact Hok].
  - simpl. unfold bind.
    destruct (dispatch_ok ev self Hok) as [Hret Hok'].
    destruct (dispatch ev self) as [[[]|e] self']; [|discriminate].
    apply IH. exact Hok'.
Qed.

Lemma init_selection_ok now : selection_ok (@__init__ Image Face now).
Proof.
  split.
  - intros name Hin. simpl in Hin. apply elem_of_nil in Hin. contradiction.
  - left. split; reflexivity.
Qed.

(** C7. Whatever events the window has handled since construction, no slot
    has raised and the selection invariant holds: every name listed in the
    selection box is a key of [src_images], and a current index of a
    non-empty box names an entry of the map.  [change_source_image] looks
    nothing up for an index outside [0, count), and with the invariant its
    lookup succeeds for every index. *)
Theorem selection_invariant_holds now evs index :
  (run evs (@__init__ Image Face now)).1 = Return tt
  /\ selection_ok (run evs (@__init__ Image Face now)).2
  /\ ((0 < count (source_combo (run evs (@__init__ Image Face now)).2))%Z ->
      is_Some (src_images (run evs (@__init__ Image Face now)).2
               !! currentText (source_combo (run evs (__init__ now)).2)))
  /\ (change_source_image index (run evs (@__init__ Image Face now)).2).1
     = Return tt
  /\ forall self : FaceSwapUI Image Face,
       (index < 0 \/ count (source_combo self) <= index)%Z ->
       change_source_image index self = (Return tt, self).
Proof.
  destruct (run_ok evs (__init__ now) (init_selection_ok now)) as [Hret Hok].
  split; [exact Hret|]. split; [exact Hok|]. split; [|split].
  - intros Hcount. destruct Hok as [Hkeys [[Hnil _]|Hin]].
    + unfold count in Hcount. rewrite Hnil in Hcount. simpl in Hcount. lia.
    + apply Hkeys, currentText_listed, Hin.
  - apply change_source_image_ok, Hok.
  - intros self Hout. unfold change_source_image. unfold_py.
    destruct ((index >=? 0)%Z && (index <? count (source_combo self))%Z)
      eqn:Hrange; [|reflexivity].
    apply andb_prop in Hrange as [Hlo Hhi].
    apply Z.geb_le in Hlo. apply Z.ltb_lt in Hhi. lia.
Qed.

(** *** Loading and the camera *)

(** C5, as the code has it.  [init_camera] polls the loader thread: while
    it is alive the progress bar is shown at 50 and [init_camera] is armed
    again in 500 ms; once it has finished the progress bar and the loading
    label are hidden.  Polling does not gate the camera: [init_camera] leaves
    [is_running], the capture and the timer alone, and [start_camera] does
    not look at the loader thread: whatever the wrapper's state, with a
    device that opens and one of the listed resolutions chosen it opens the
    capture, starts the 30 ms timer and sets [is_running]. *)
Theorem loading_is_polled_but_gates_nothing self device loader :
  (is_alive (thread (swapper self)) = true ->
   init_camera self
   = (Return tt,
      set_single_shots (single_shots self ++ [(500, init_camera_slot)])%list
        (set_progress_bar {| value := 50; bar_hidden := false |} self)))
  /\ (is_alive (thread (swapper self)) = false ->
      init_camera self
      = (Return tt,
         set_loading_label (hide (loading_label self))
           (set_progress_bar
              {| value := value (progress_bar self); bar_hidden := true |}
              self)))
  /\ camera_part (init_camera self).2 = camera_part self
  /\ start_camera device (set_swapper loader self)
     = ((start_camera device self).1,
        set_swapper loader (start_camera device self).2)
  /\ (items (resolution_combo self) = ["640x480"; "1280x720"; "1920x1080"] ->
      (0 <= currentIndex (resolution_combo self) < 3)%Z ->
      (start_camera (Return true) self).1 = Return tt
      /\ camera_enabled (start_camera (Return true) self).2 = true
      /\ timer (start_camera (Return true) self).2
         = Some {| isActive := true; interval := 30 |}
      /\ is_running (start_camera (Return true) self).2 = true).
Proof.
  split; [|split; [|split; [|split]]].
  - intros Halive. unfold init_camera. unfold_gui. unfold_py.
    rewrite Halive. reflexivity.
  - intros Halive. unfold init_camera. unfold_gui. unfold_py.
    rewrite Halive. reflexivity.
  - eapply (keeps_pair_l _ _ _ init_camera_keeps).
  - unfold start_camera. unfold_gui. unfold_py.
    destruct device as [[]|e]; simpl; [|reflexivity|reflexivity].
    destruct (split "x" (currentText (resolution_combo self)) !! 0%nat)
      as [r0|]; simpl; [|reflexivity].
    destruct (int r0) as [width|e]; simpl; [|reflexivity].
    destruct (split "x" (currentText (resolution_combo self)) !! 1%nat)
      as [r1|]; simpl; [|reflexivity].
    destruct (int r1) as [height|e]; reflexivity.
  - intros Hitems Hindex.
    unfold start_camera, camera_enabled, currentText, itemText.
    unfold_gui. unfold_py. simpl. rewrite Hitems.
    assert (Hcases : currentIndex (resolution_combo self) = 0%Z
                     \/ currentIndex (resolution_combo self) = 1%Z
                     \/ currentIndex (resolution_combo self) = 2%Z) by lia.
    destruct Hcases as [->|[->| ->]]; repeat apply conj; reflexivity.
Qed.

(** *** Errors reported by the window *)

Lemma add_source_image_file_returns file imread self :
  (add_source_image_file file imread self).1 = Return tt.
Proof. apply try_except_returns. reflexivity. Qed.

Lemma add_source_image_returns accepted files self :
  (add_source_image accepted files self).1 = Return tt.
Proof.
  unfold add_source_image. destruct accepted; [|reflexivity].
  revert self. induction files as [|[file imread] files IH]; intros self.
  - reflexivity.
  - simpl. unfold bind.
    pose proof (add_source_image_file_returns file imread self) as Hret.
    destruct (add_source_image_file file imread self) as [[[]|e] self'];
      [apply IH|discriminate].
Qed.

(** The parts of C8 that hold.  A camera that does not open, or whose
    set-up raises, is reported in a modal box and [start_camera] returns.
    [add_source_image] always returns, and a file whose loading raises is
    reported in a modal box before the remaining files are processed; a
    file that [cv2.imread] cannot read ([None]) is passed over.  An
    exception escaping the construction of the window (or the event loop)
    is reported in a modal box and the process ends with exit status 1;
    otherwise the exit status is the event loop's. *)
Theorem window_errors_are_reported_not_fatal self :
  start_camera (Return false) self
  = (Return tt,
     set_dialogs
       (dialogs self ++
          [{| box_icon := Critical; box_title := "错误";
              box_text := "无法打开摄像头" |}])%list
       (set_cap (Some {| isOpened := false; CAP_PROP_FRAME_WIDTH := None;
                         CAP_PROP_FRAME_HEIGHT := None |}) self))
  /\ (forall e,
        start_camera (Raise e) self
        = (Return tt,
           set_dialogs
             (dialogs self ++
                [{| box_icon := Critical; box_title := "错误";
                    box_text := "摄像头初始化失败: " ++ str e |}])%list self))
  /\ (forall accepted files,
        (add_source_image accepted files self).1 = Return tt)
  /\ (forall file e rest,
        add_source_image true ((file, Raise e) :: rest) self
        = add_source_image true rest
            (set_dialogs
               (dialogs self ++
                  [{| box_icon := Warning; box_title := "警告";
                      box_text := "加载图片失败: " ++ str e |}])%list self))
  /\ (forall file rest,
        add_source_image true ((file, Return None) :: rest) self
        = add_source_image true rest self)
  /\ (forall e (exec_ : FaceSwapUI Image Face -> outcome Z),
        main (Raise e) exec_
        = {| shown := [{| box_icon := Critical; box_title := "错误";
                          box_text := "启动失败: " ++ str e |}];
             exit_status := 1 |})
  /\ (forall e,
        main (Return self) (fun _ => Raise e)
        = {| shown := [{| box_icon := Critical; box_title := "错误";
                          box_text := "启动失败: " ++ str e |}];
             exit_status := 1 |})
  /\ (forall status,
        main (Return self) (fun _ => Return status)
        = {| shown := []; exit_status := status |}).
Proof.
  repeat apply conj; try reflexivity.
  intros accepted files. apply add_source_image_returns.
Qed.

(** *** Frame tactics for the handlers, for a given part of the window *)

Ltac keeps_log :=
  let s := fresh "s" in
  intros s;
  match goal with
  | |- context [for_each ?records emit_log s] =>
      destruct (for_each_emit_log_effect records s) as (? & ? & ->)
  end;
  reflexivity.

Ltac keeps_update_frame :=
  let s := fresh "s" in
  intros s;
  match goal with
  | |- context [update_frame ?read _ s] => update_frame_paths s read
  end;
  first [ reflexivity
        | congruence
        | repeat match goal with H : _ = _ |- _ => rewrite H end;
          reflexivity ].

Ltac keeps_add_source :=
  unfold add_source_image;
  match goal with
  | |- keeps _ (if ?accepted then _ else _) => destruct accepted
  end;
  [ apply keeps_for_each; intros [? ?] _;
    unfold add_source_image_file; unfold_gui; keeps_auto
  | apply keeps_ret ].

(** Goes through the events of [dispatch ev]; the events whose handlers
    write the part in question are left to the caller. *)
Ltac keeps_dispatch ev :=
  unfold dispatch; apply keeps_bind; [apply keeps_get|intros ?self];
  destruct ev as [?accepted ?files|?i|?i| |?device|?read ?current_time| |?env|];
  try discriminate;
  try solve
    [ keeps_add_source
    | unfold toggle_camera, closeEvent; unfold_gui; keeps_auto
    | match goal with
      | |- keeps _ (match timer ?s with _ => _ end) =>
          destruct (timer s) as [?t|]; [destruct (isActive t)|];
          try apply keeps_ret; keeps_update_frame
      | |- keeps _ (match single_shots ?s with _ => _ end) =>
          destruct (single_shots s) as [|[?msec []] ?rest];
          [apply keeps_ret|];
          apply keeps_bind; [apply keeps_modify; reflexivity|intros _];
          unfold run_slot, init_camera; unfold_gui; keeps_auto
      | |- keeps _ (if is_alive _ then _ else _) =>
          destruct (is_alive _); [|apply keeps_ret];
          destruct (run_loader _ _) as [?loaded ?records];
          apply keeps_bind; [apply keeps_modify; reflexivity|intros _];
          keeps_log
      end ].

(** *** The lock over a run *)

Lemma dispatch_keeps_lock ev :
  match ev with timer_timeout _ _ => False | _ => True end ->
  keeps (fun self : FaceSwapUI Image Face => (lock self, swap_calls self))
        (dispatch ev).
Proof.
  intros Hev. keeps_dispatch ev. contradiction.
Qed.

Lemma update_frame_lock_and_calls read current_time self :
  lock (update_frame read current_time self).2 = lock self
  /\ exists calls,
       swap_calls (update_frame read current_time self).2
       = (swap_calls self ++ calls)%list
       /\ Forall (fun c => call_locked c = true) calls.
Proof.
  split.
  - update_frame_paths self read; congruence.
  - update_frame_paths self read;
      first [ exists []; rewrite app_nil_r; split; [reflexivity|constructor]
            | eexists [_]; split; [reflexivity|repeat constructor] ].
Qed.

Lemma dispatch_lock_ok ev self : lock_ok self -> lock_ok (dispatch ev self).2.
Proof.
  intros [Hfree Hcalls]. unfold lock_ok.
  assert (Hother : match ev with timer_timeout _ _ => False | _ => True end ->
                   lock (dispatch ev self).2 = lock self
                   /\ swap_calls (dispatch ev self).2 = swap_calls self).
  { intros Hev. pose proof (dispatch_keeps_lock ev Hev self) as Hkept.
    cbv beta in Hkept. injection Hkept as Hl Hc. split; assumption. }
  destruct ev as [accepted files|i|i| |device|read current_time| |env|];
    try (destruct (Hother I) as [-> ->]; split; assumption).
  clear Hother. unfold dispatch. unfold_py. cbv beta iota.
  destruct (timer self) as [t|]; [destruct (isActive t)|];
    try (split; assumption).
  destruct (update_frame_lock_and_calls read current_time self)
    as (-> & calls & -> & Hnew).
  split; [exact Hfree|]. apply Forall_app. split; assumption.
Qed.

(** Over any run of the window the lock is free between two events: a tick
    that takes it gives it back before it returns.  And every call of
    [swap_face] made so far was made while the lock was held. *)
Theorem lock_is_free_between_events now evs :
  locked (lock (run evs (@__init__ Image Face now)).2) = false
  /\ Forall (fun c => call_locked c = true)
       (swap_calls (run evs (@__init__ Image Face now)).2).
Proof.
  apply (for_each_invariant lock_ok evs dispatch).
  - intros ev s. apply dispatch_lock_ok.
  - split; [reflexivity|constructor].
Qed.


(** *** The camera over a run *)

Lemma dispatch_keeps_resolution ev :
  match ev with resolution_activated _ => False | _ => True end ->
  keeps (@resolution_combo Image Face) (dispatch ev).
Proof.
  intros Hev. keeps_dispatch ev; contradiction.
Qed.

Lemma dispatch_resolution_ok ev self :
  resolution_ok self -> resolution_ok (dispatch ev self).2.
Proof.
  intros [Hitems Hindex]. unfold resolution_ok.
  assert (Hother : match ev with resolution_activated _ => False | _ => True end ->
                   resolution_combo (dispatch ev self).2 = resolution_combo self)
    by (intros Hev; apply (dispatch_keeps_resolution ev Hev self)).
  destruct ev as [accepted files|i|i| |device|read current_time| |env|];
    try (rewrite (Hother I); split; assumption).
  clear Hother. unfold dispatch, activate. unfold_py. cbv beta iota. simpl.
  destruct ((0 <=? i)%Z && (i <? count (resolution_combo self))%Z
            && negb (i =? currentIndex (resolution_combo self))%Z) eqn:Hrange;
    simpl; [|split; assumption].
  split; [exact Hitems|].
  apply andb_prop in Hrange as [Hrange _].
  apply andb_prop in Hrange as [Hlo Hhi].
  apply Z.leb_le in Hlo. apply Z.ltb_lt in Hhi.
  unfold count in Hhi. rewrite Hitems in Hhi. simpl in Hhi. lia.
Qed.

(** With one of the listed resolutions chosen and a device that opens,
    [start_camera] meets no error: the capture is asked for the width and
    height that the chosen text spells, the 30 ms timer is started and
    [is_running] set; no box is shown. *)
Lemma start_camera_opened self :
  resolution_ok self ->
  exists width height,
    start_camera (Return true) self
    = (Return tt,
       set_status_bar (showMessage "摄像头已启动" 0 (status_bar self))
         (set_is_running true
            (set_timer (Some {| isActive := true; interval := 30 |})
               (set_cap (Some {| isOpened := true;
                                 CAP_PROP_FRAME_WIDTH := Some width;
                                 CAP_PROP_FRAME_HEIGHT := Some height |})
                  self))))
    /\ currentText (resolution_combo self)
       = pretty width ++ "x" ++ pretty height.
Proof.
  intros [Hitems Hindex].
  unfold start_camera, currentText, itemText. unfold_gui. unfold_py. simpl.
  rewrite Hitems.
  assert (Hcases : currentIndex (resolution_combo self) = 0%Z
                   \/ currentIndex (resolution_combo self) = 1%Z
                   \/ currentIndex (resolution_combo self) = 2%Z) by lia.
  destruct Hcases as [->|[->| ->]];
    [exists 640%Z, 480%Z|exists 1280%Z, 720%Z|exists 1920%Z, 1080%Z];
    split; reflexivity.
Qed.

Lemma stop_camera_camera_ok self :
  resolution_ok self -> camera_ok (stop_camera self).2.
Proof.
  intros Hres. unfold camera_ok, capture_open, timer_running, resolution_ok in *.
  unfold stop_camera. unfold_py.
  destruct (cap self) as [[[] w h]|] eqn:Hcap;
    destruct (timer self) as [t|] eqn:Htimer; simpl;
    rewrite ?Hcap, ?Htimer; simpl;
    (split; [reflexivity|split; [discriminate|exact Hres]]).
Qed.

Lemma start_camera_camera_ok device self :
  camera_ok self -> is_running self = false ->
  camera_ok (start_camera device self).2.
Proof.
  intros (Hsame & Hrun & Hres) Hstopped.
  assert (Hclosed : capture_open self = false).
  { destruct (capture_open self); [|reflexivity].
    rewrite Hrun in Hstopped by reflexivity. discriminate. }
  rewrite Hclosed in Hsame.
  destruct device as [[]|e].
  - destruct (start_camera_opened self Hres) as (w & h & -> & _).
    unfold camera_ok, capture_open, timer_running, resolution_ok in *. simpl.
    split; [reflexivity|split; [reflexivity|exact Hres]].
  - unfold camera_ok, capture_open, timer_running, resolution_ok in *.
    unfold start_camera. unfold_gui. unfold_py. simpl.
    split; [exact Hsame|split; [discriminate|exact Hres]].
  - unfold camera_ok, capture_open, timer_running, resolution_ok in *.
    unfold start_camera. unfold_gui. unfold_py. simpl.
    split; [congruence|split; [congruence|exact Hres]].
Qed.

Lemma dispatch_camera_ok ev self : camera_ok self -> camera_ok (dispatch ev self).2.
Proof.
  intros Hok.
  destruct (is_camera_event ev) eqn:Hev.
  - destruct ev as [accepted files|i|i| |device|read current_time| |env|];
      try discriminate.
    + unfold dispatch, toggle_camera. unfold_py. cbv beta iota.
      destruct (is_running self) eqn:Hrunning.
      * pose proof (stop_camera_camera_ok self (proj2 (proj2 Hok))) as Hstop.
        destruct (stop_camera self) as [[[]|e] s']; simpl in *; exact Hstop.
      * pose proof (start_camera_camera_ok device self Hok Hrunning) as Hstart.
        destruct (start_camera device self) as [[[]|e] s']; simpl in *;
          exact Hstart.
    + apply stop_camera_camera_ok. exact (proj2 (proj2 Hok)).
  - destruct Hok as (Hsame & Hrun & Hres).
    pose proof (dispatch_keeps_camera ev Hev self) as Hkept.
    unfold camera_part in Hkept. injection Hkept as Hr Hc Ht.
    unfold camera_ok, capture_open, timer_running in *.
    rewrite Hr, Hc, Ht.
    split; [exact Hsame|split; [exact Hrun|]].
    apply dispatch_resolution_ok. exact Hres.
Qed.

Lemma init_camera_ok now : camera_ok (@__init__ Image Face now).
Proof.
  unfold camera_ok, capture_open, timer_running, resolution_ok. simpl.
  split; [reflexivity|split; [discriminate|split; [reflexivity|lia]]].
Qed.

(** Over any run of the window the capture is open exactly while the frame
    timer runs, and only while [is_running] is set: no capture is left open
    by a stop or by a failed start, and [start_camera], which [toggle_camera]
    calls only with [is_running] unset, never replaces an open capture or a
    running timer. *)
Theorem capture_open_iff_timer_runs now evs :
  capture_open (run evs (@__init__ Image Face now)).2
  = timer_running (run evs (@__init__ Image Face now)).2
  /\ (capture_open (run evs (@__init__ Image Face now)).2 = true ->
      is_running (run evs (@__init__ Image Face now)).2 = true)
  /\ (is_running (run evs (@__init__ Image Face now)).2 = false ->
      capture_open (run evs (@__init__ Image Face now)).2 = false
      /\ timer_running (run evs (@__init__ Image Face now)).2 = false).
Proof.
  destruct (for_each_invariant camera_ok evs dispatch
              (fun ev s => dispatch_camera_ok ev s) _ (init_camera_ok now))
    as (Hsame & Hrun & _).
  fold (run evs (@__init__ Image Face now)) in *.
  split; [exact Hsame|split; [exact Hrun|]].
  intros Hstopped. rewrite <- Hsame.
  destruct (capture_open _); [|split; reflexivity].
  rewrite Hrun in Hstopped by reflexivity. discriminate.
Qed.

(** In every window a run can reach, the resolution box still holds one of
    its three rows, so a [start_camera] whose device opens cannot fail:
    it returns with the capture open and asked for the width and height
    that the chosen text spells ("640x480" gives 640 and 480), the 30 ms
    timer running, [is_running] set and no box shown. *)
Theorem start_camera_applies_chosen_resolution now evs :
  exists width height,
    start_camera (Return true) (run evs (@__init__ Image Face now)).2
    = (Return tt,
       set_status_bar
         (showMessage "摄像头已启动" 0
            (status_bar (run evs (@__init__ Image Face now)).2))
         (set_is_running true
            (set_timer (Some {| isActive := true; interval := 30 |})
               (set_cap (Some {| isOpened := true;
                                 CAP_PROP_FRAME_WIDTH := Some width;
                                 CAP_PROP_FRAME_HEIGHT := Some height |})
                  (run evs (@__init__ Image Face now)).2))))
    /\ currentText (resolution_combo (run evs (@__init__ Image Face now)).2)
       = pretty width ++ "x" ++ pretty height.
Proof.
  apply start_camera_opened.
  apply (for_each_invariant resolution_ok evs dispatch).
  - intros ev s. apply dispatch_resolution_ok.
  - split; [reflexivity|simpl; lia].
Qed.


(** *** Polling the loader over a run *)

Lemma dispatch_keeps_poll ev :
  match ev with
  | single_shot_timeout | loader_exited _ => False
  | _ => True
  end ->
  keeps (fun self : FaceSwapUI Image Face =>
           (single_shots self, loading_label self, progress_bar self,
            swapper self))
        (dispatch ev).
Proof.
  intros Hev. keeps_dispatch ev; contradiction.
Qed.

Lemma dispatch_poll_ok ev self : poll_ok self -> poll_ok (dispatch ev self).2.
Proof.
  intros Hok.
  assert (Hother : match ev with
                   | single_shot_timeout | loader_exited _ => False
                   | _ => True
                   end -> poll_ok (dispatch ev self).2).
  { intros Hev. pose proof (dispatch_keeps_poll ev Hev self) as Hkept.
    cbv beta in Hkept. injection Hkept as Hs Hl Hp Hw.
    unfold poll_ok in *. rewrite Hs, Hl, Hp, Hw. exact Hok. }
  destruct ev as [accepted files|i|i| |device|read current_time| |env|];
    try (apply Hother; exact I); clear Hother.
  - unfold dispatch, run_slot, init_camera. unfold_gui. unfold_py.
    cbv beta iota. unfold poll_ok in *.
    destruct (single_shots self) as [|[msec []] [|more rest]] eqn:Hshots;
      simpl; rewrite ?Hshots; [exact Hok| |contradiction].
    destruct (is_alive (thread (swapper self))) eqn:Halive; simpl.
    + exact Hok.
    + rewrite Halive. repeat split.
  - unfold dispatch. unfold_py. cbv beta iota. unfold poll_ok in *.
    destruct (is_alive (thread (swapper self))) eqn:Halive;
      [|simpl; rewrite ?Halive; exact Hok].
    destruct (run_loader env (swapper self)) as [loaded records] eqn:Hloader.
    assert (Hdead : is_alive (thread loaded) = false).
    { unfold run_loader in Hloader. injection Hloader as <- _. reflexivity. }
    match goal with
    | |- context [for_each records emit_log ?st] =>
        destruct (for_each_emit_log_effect records st) as (bar & boxes & ->)
    end.
    simpl.
    destruct (single_shots self) as [|[msec []] [|more rest]];
      [|exact Hok|contradiction].
    destruct Hok as (Hold & _). congruence.
Qed.

(** Over any run of the window at most one poll of the loader is pending.
    While the loader thread is alive one poll is pending and the loading
    label is shown; the label is hidden only after the thread has finished,
    and from then on no poll is left and the progress bar is hidden too. *)
Theorem loader_is_polled_until_it_exits now evs :
  (length (single_shots (run evs (@__init__ Image Face now)).2) <= 1)%nat
  /\ (is_alive (thread (swapper (run evs (@__init__ Image Face now)).2)) = true ->
      label_hidden (loading_label (run evs (@__init__ Image Face now)).2) = false
      /\ exists msec,
           single_shots (run evs (@__init__ Image Face now)).2
           = [(msec, init_camera_slot)])
  /\ (label_hidden (loading_label (run evs (@__init__ Image Face now)).2) = true ->
      is_alive (thread (swapper (run evs (@__init__ Image Face now)).2)) = false
      /\ single_shots (run evs (@__init__ Image Face now)).2 = []
      /\ bar_hidden (progress_bar (run evs (@__init__ Image Face now)).2) = true).
Proof.
  pose proof (for_each_invariant poll_ok evs dispatch
                (fun ev s => dispatch_poll_ok ev s) (__init__ now)) as Hok.
  fold (run evs (@__init__ Image Face now)) in Hok.
  specialize (Hok eq_refl). unfold poll_ok in Hok.
  destruct (single_shots (run evs (__init__ now)).2)
    as [|[msec []] [|more rest]]; [| |contradiction].
  - destruct Hok as (Hdead & Hhidden & Hbar).
    split; [simpl; lia|]. split; [congruence|]. intros _. auto.
  - split; [simpl; lia|]. split; [eauto|]. congruence.
Qed.


(** *** The source image over a run *)

Lemma dispatch_keeps_source ev :
  match ev with
  | add_source_clicked _ _ | source_activated _ => False
  | _ => True
  end ->
  keeps (fun self : FaceSwapUI Image Face => (src_img self, selection_part self))
        (dispatch ev).
Proof.
  intros Hev. keeps_dispatch ev; contradiction.
Qed.

(** With the invariant, [change_source_image] never drops the source image,
    and for an index within the box it takes the image stored under the
    current name. *)
Lemma change_source_image_chooses index self :
  selection_ok self ->
  (src_img self <> None -> src_img (change_source_image index self).2 <> None)
  /\ ((0 <= index < count (source_combo self))%Z ->
      src_img (change_source_image index self).2
      = src_images self !! currentText (source_combo self)
      /\ src_img (change_source_image index self).2 <> None).
Proof.
  intros [Hkeys Hindex]. unfold change_source_image. unfold_py.
  destruct ((index >=? 0)%Z && (index <? count (source_combo self))%Z)
    eqn:Hrange.
  - apply andb_prop in Hrange as [Hlo Hhi].
    apply Z.geb_le in Hlo. apply Z.ltb_lt in Hhi.
    destruct Hindex as [[Hnil _]|Hin].
    { unfold count in Hhi. rewrite Hnil in Hhi. simpl in Hhi. lia. }
    destruct (Hkeys _ (currentText_listed _ Hin)) as [img Himg].
    rewrite Himg. simpl. split; [discriminate|].
    intros _. split; [reflexivity|discriminate].
  - simpl. split; [tauto|]. intros [Hlo Hhi].
    apply andb_false_iff in Hrange as [Hrange|Hrange].
    + rewrite Z.geb_leb in Hrange. apply Z.leb_gt in Hrange. lia.
    + apply Z.ltb_ge in Hrange. lia.
Qed.

Lemma source_ok_kept self self' :
  (src_img self', selection_part self') = (src_img self, selection_part self) ->
  source_ok self -> source_ok self'.
Proof.
  intros H [Hsel Hsrc].
  pose proof (f_equal fst H) as Hi. pose proof (f_equal snd H) as Hp.
  simpl in Hi, Hp.
  split; [eapply selection_ok_kept; eassumption|].
  pose proof (f_equal snd Hp) as Hc. simpl in Hc. rewrite Hi, Hc. exact Hsrc.
Qed.

Lemma change_source_image_source_ok index self :
  source_ok self -> source_ok (change_source_image index self).2.
Proof.
  intros [Hsel Hsrc].
  pose proof (keeps_pair_r _ _ _ (change_source_image_keeps index) self)
    as Hp.
  split; [eapply selection_ok_kept; eassumption|].
  pose proof (f_equal snd Hp) as Hc. simpl in Hc. rewrite Hc.
  destruct (change_source_image_chooses index self Hsel) as [Hstays _].
  split.
  - intros Hnone. apply Hsrc. destruct (src_img self); [|reflexivity].
    exfalso. apply Hstays; [discriminate|exact Hnone].
  - intros Hnil.
    assert (Hsame : change_source_image index self = (Return tt, self)).
    { unfold change_source_image. unfold_py.
      destruct ((index >=? 0)%Z && (index <? count (source_combo self))%Z)
        eqn:Hrange; [|reflexivity].
      apply andb_prop in Hrange as [Hlo Hhi].
      apply Z.geb_le in Hlo. apply Z.ltb_lt in Hhi.
      unfold count in Hhi. rewrite Hnil in Hhi. simpl in Hhi. lia. }
    rewrite Hsame. apply Hsrc. exact Hnil.
Qed.

(** A file that was read: its name is listed and an image is chosen. *)
Lemma add_readable_file_source_ok file img self :
  source_ok self ->
  source_ok (add_source_image_file file (Return (Some img)) self).2.
Proof.
  intros [Hsel Hsrc].
  set (name := basename file).
  set (stored := set_src_images (<[name := img]> (src_images self)) self).
  set (listed := set_source_combo (addItem name (source_combo stored)).1 stored).
  assert (Hlisted : selection_ok listed).
  { destruct (source_combo_addItem_ok name img self Hsel) as [_ Hafter].
    fold stored in Hafter. revert Hafter.
    unfold source_combo_addItem. unfold_py. fold listed.
    destruct (addItem name (source_combo stored)) as [combo [i|]] eqn:Hadd;
      simpl; [|tauto].
    intros Hafter. eapply selection_ok_kept; [|exact Hafter].
    symmetry. eapply (keeps_pair_r _ _ _ (change_source_image_keeps i)). }
  assert (Hadded : source_ok (source_combo_addItem name stored).2).
  { unfold source_combo_addItem. unfold_py. fold listed.
    unfold addItem in *. simpl in *.
    destruct ((currentIndex (source_combo self) <? 0)%Z
              && (count (source_combo self) =? 0)%Z) eqn:Hempty; simpl.
    - change (source_ok (change_source_image 0 listed).2).
      destruct (change_source_image_chooses 0 listed Hlisted) as [_ Hin].
      pose proof (keeps_pair_r _ _ _ (change_source_image_keeps 0) listed)
        as Hp.
      split; [eapply selection_ok_kept; eassumption|].
      pose proof (f_equal snd Hp) as Hc. simpl in Hc. rewrite Hc.
      split.
      + intros Hnone. exfalso. refine (proj2 (Hin _) Hnone).
        subst listed. unfold count. simpl. rewrite length_app. simpl. lia.
      + subst listed. simpl. intros Hnil.
        apply app_eq_nil in Hnil as [_ Hnil]. discriminate.
    - change (source_ok listed).
      split; [exact Hlisted|]. subst listed stored. simpl.
      split.
      + intros Hnone. apply Hsrc in Hnone.
        destruct Hsel as [_ [[_ Hminus]|Hin]].
        * unfold count in Hempty. rewrite Hnone, Hminus in Hempty. discriminate.
        * unfold count in Hin. rewrite Hnone in Hin. simpl in Hin. lia.
      + intros Hnil. apply app_eq_nil in Hnil as [_ Hnil]. discriminate. }
  unfold add_source_image_file. unfold_gui. unfold_py. simpl.
  fold name. fold stored.
  destruct (source_combo_addItem name stored) as [[[]|e] added]; simpl in *.
  - destruct (Z.of_nat (size (src_images added)) =? 1)%Z; [|exact Hadded].
    pose proof (change_source_image_source_ok 0 added Hadded) as Hchosen.
    destruct (change_source_image 0 added) as [[[]|e] chosen]; simpl in *.
    + exact Hchosen.
    + eapply source_ok_kept; [|exact Hchosen]. reflexivity.
  - eapply source_ok_kept; [|exact Hadded]. reflexivity.
Qed.

Lemma dispatch_source_ok ev self : source_ok self -> source_ok (dispatch ev self).2.
Proof.
  intros Hok.
  assert (Hother : match ev with
                   | add_source_clicked _ _ | source_activated _ => False
                   | _ => True
                   end -> source_ok (dispatch ev self).2).
  { intros Hev. eapply source_ok_kept; [|exact Hok].
    apply (dispatch_keeps_source ev Hev self). }
  destruct ev as [accepted files|i|i| |device|read current_time| |env|];
    try (apply Hother; exact I); clear Hother.
  - unfold dispatch, add_source_image. unfold_py. cbv beta iota.
    destruct accepted; [|exact Hok].
    apply for_each_invariant; [|exact Hok].
    intros [file [[img|]|e]] s Hs.
    + apply add_readable_file_source_ok. exact Hs.
    + exact Hs.
    + eapply source_ok_kept; [|exact Hs]. reflexivity.
  - unfold dispatch, activate. unfold_py. cbv beta iota.
    destruct ((0 <=? i)%Z && (i <? count (source_combo self))%Z
              && negb (i =? currentIndex (source_combo self))%Z) eqn:Hrange;
      [|simpl; eapply source_ok_kept; [|exact Hok]; reflexivity].
    apply change_source_image_source_ok.
    destruct Hok as [[Hkeys _] Hsrc].
    apply andb_prop in Hrange as [Hrange _].
    apply andb_prop in Hrange as [Hlo Hhi].
    apply Z.leb_le in Hlo. apply Z.ltb_lt in Hhi.
    split; [split|exact Hsrc]; [exact Hkeys|right].
    unfold count in *. simpl. lia.
Qed.

(** Over any run of the window a source image is held exactly when the
    selection box lists at least one name: the first readable file added is
    chosen at once, and nothing ever clears the choice. *)
Theorem source_image_held_iff_listed now evs :
  src_img (run evs (@__init__ Image Face now)).2 = None
  <-> items (source_combo (run evs (@__init__ Image Face now)).2) = [].
Proof.
  apply (for_each_invariant source_ok evs dispatch).
  - intros ev s. apply dispatch_source_ok.
  - split; [apply init_selection_ok|]. simpl. tauto.
Qed.


(** *** The frame counter *)

(** A tick that reads a frame counts it.  When at least one second has
    passed since [last_time] (the binary64 test [current_time - last_time
    >= 1.0]), [fps] takes the count including this frame, the count
    restarts at zero, [last_time] moves to now and the label is rewritten;
    otherwise only [frame_count] grows, by one.  Lock, detection setting and
    swap result play no part. *)
Theorem update_frame_counts_frames self read current_time capture image :
  cap self = Some capture -> isOpened capture = true -> read = Some image ->
  if PrimFloat.leb 1%float (PrimFloat.sub current_time (last_time self))
  then
    fps (update_frame read current_time self).2 = (frame_count self + 1)%Z
    /\ frame_count (update_frame read current_time self).2 = 0%Z
    /\ last_time (update_frame read current_time self).2 = current_time
    /\ text (fps_label (update_frame read current_time self).2)
       = "FPS: " ++ pretty (frame_count self + 1)%Z
  else
    fps (update_frame read current_time self).2 = fps self
    /\ frame_count (update_frame read current_time self).2
       = (frame_count self + 1)%Z
    /\ last_time (update_frame read current_time self).2 = last_time self
    /\ fps_label (update_frame read current_time self).2 = fps_label self.
Proof.
  intros Hc Ho Hr.
  update_frame_paths self read; try congruence;
    repeat apply conj; reflexivity.
Qed.

Lemma dispatch_keeps_fps ev :
  match ev with timer_timeout _ _ => False | _ => True end ->
  keeps (fun self : FaceSwapUI Image Face =>
           (fps self, frame_count self, fps_label self))
        (dispatch ev).
Proof.
  intros Hev. keeps_dispatch ev; contradiction.
Qed.

Lemma update_frame_fps_ok read current_time self :
  fps_ok self -> fps_ok (update_frame read current_time self).2.
Proof.
  intros (Hlabel & Hfps & Hcount). unfold fps_ok.
  update_frame_paths self read; simpl;
    repeat apply conj; first [assumption|reflexivity|lia].
Qed.

Lemma dispatch_fps_ok ev self : fps_ok self -> fps_ok (dispatch ev self).2.
Proof.
  intros Hok.
  assert (Hother : match ev with timer_timeout _ _ => False | _ => True end ->
                   fps_ok (dispatch ev self).2).
  { intros Hev. pose proof (dispatch_keeps_fps ev Hev self) as Hkept.
    cbv beta in Hkept. injection Hkept as Hf Hc Hl.
    unfold fps_ok in *. rewrite Hf, Hc, Hl. exact Hok. }
  destruct ev as [accepted files|i|i| |device|read current_time| |env|];
    try (apply Hother; exact I); clear Hother.
  unfold dispatch. unfold_py. cbv beta iota.
  destruct (timer self) as [t|]; [destruct (isActive t)|]; try exact Hok.
  apply update_frame_fps_ok. exact Hok.
Qed.

(** Over any run of the window the FPS label shows the current value of
    [fps], and neither [fps] nor [frame_count] is negative. *)
Theorem fps_label_shows_fps now evs :
  text (fps_label (run evs (@__init__ Image Face now)).2)
  = "FPS: " ++ pretty (fps (run evs (@__init__ Image Face now)).2)
  /\ (0 <= fps (run evs (@__init__ Image Face now)).2)%Z
  /\ (0 <= frame_count (run evs (@__init__ Image Face now)).2)%Z.
Proof.
  apply (for_each_invariant fps_ok evs dispatch).
  - intros ev s. apply dispatch_fps_ok.
  - unfold fps_ok. simpl. repeat split; first [reflexivity|lia].
Qed.


(** *** What a tick shows *)

(** A tick that swaps (lock free, detection on, a source chosen, a frame
    read) shows what [swap_face] returned, or the raw frame if that is
    [None].  The camera status says "face detected" whenever [swap_face]
    returned an image, so also on every path where it handed the frame
    back; "no face detected" is shown only when the swap model itself
    returned [None]. *)
Theorem update_frame_shows_swap_result self current_time capture image src :
  cap self = Some capture -> isOpened capture = true ->
  locked (lock self) = false ->
  isChecked (face_detection_check self) = true ->
  src_img self = Some src ->
  exists result,
    (swap_face (swapper self) src image []).1 = Return result
    /\ pixmap (cam_label (update_frame (Some image) current_time self).2)
       = Some (scaled (fromImage (default image result)) 800 600)
    /\ text (cam_status (update_frame (Some image) current_time self).2)
       = match result with
         | Some _ => "检测到人脸"
         | None => "未检测到人脸"
         end
    /\ (result = None ->
        exists the_swapper d s,
          face_swap.swapper (swapper self) = Some the_swapper
          /\ sw_get the_swapper image d s true = Return None).
Proof.
  intros Hc Ho Hl Hd Hs.
  assert (Hnone : forall result,
            (swap_face (swapper self) src image []).1 = Return result ->
            result = None ->
            exists the_swapper d s,
              face_swap.swapper (swapper self) = Some the_swapper
              /\ sw_get the_swapper image d s true = Return None).
  { intros result Hres ->.
    destruct (swap_face_cases (swapper self) src image [])
      as [[l' Heq]|(sw & d & s & r & Hsw & Hget & Heq)];
      rewrite Heq in Hres; simpl in Hres; [discriminate|].
    injection Hres as ->. eauto. }
  remember (Some image) as read eqn:Hread.
  update_frame_paths self read; try congruence;
    try (simpl in Hl; discriminate);
    injection Hread as ->; injection Hs as <-;
    simpl in Hresult;
    (eexists; split; [exact Hresult|]; repeat apply conj; try reflexivity;
     intros Hres;
     first [discriminate|eapply Hnone; [exact Hresult|reflexivity]]).
Qed.

(** A tick that does not swap because detection is off or no source is
    chosen shows the raw frame, makes no call of [swap_face], and says why:
    "choose a source image" when none is held, whatever the detection
    setting, and "detection disabled" otherwise. *)
Theorem update_frame_without_swap self current_time capture image :
  cap self = Some capture -> isOpened capture = true ->
  locked (lock self) = false ->
  isChecked (face_detection_check self) = false \/ src_img self = None ->
  swap_calls (update_frame (Some image) current_time self).2 = swap_calls self
  /\ pixmap (cam_label (update_frame (Some image) current_time self).2)
     = Some (scaled (fromImage image) 800 600)
  /\ text (cam_status (update_frame (Some image) current_time self).2)
     = match src_img self with
       | None => "请选择源图片"
       | Some _ => "人脸检测已禁用"
       end
  /\ styleSheet (cam_status (update_frame (Some image) current_time self).2)
     = "color: #888888;".
Proof.
  intros Hc Ho Hl Hwhy.
  remember (Some image) as read eqn:Hread.
  update_frame_paths self read; try congruence;
    try (simpl in Hl; discriminate);
    try (destruct Hwhy; congruence);
    injection Hread as ->; repeat apply conj; reflexivity.
Qed.

(** While the models are loading, a tick that swaps shows the raw frame,
    opens no box and writes the wrapper's INFO message to the status bar;
    the camera status nevertheless reads "face detected". *)
Theorem update_frame_while_loading self current_time capture image src :
  is_alive (thread (swapper self)) = true ->
  cap self = Some capture -> isOpened capture = true ->
  locked (lock self) = false ->
  isChecked (face_detection_check self) = true ->
  src_img self = Some src ->
  (update_frame (Some image) current_time self).1 = Return tt
  /\ dialogs (update_frame (Some image) current_time self).2 = dialogs self
  /\ status_bar (update_frame (Some image) current_time self).2
     = {| message := "INFO: 模型仍在加载中..."; timeout := 0 |}
  /\ pixmap (cam_label (update_frame (Some image) current_time self).2)
     = Some (scaled (fromImage image) 800 600)
  /\ text (cam_status (update_frame (Some image) current_time self).2)
     = "检测到人脸".
Proof.
  intros Halive Hc Ho Hl Hd Hs.
  unfold update_frame, call_swap_face, swap_face, emit_log, handle_log,
    logger_emit, log. unfold_gui. unfold_py.
  rewrite Hc. simpl. rewrite Ho. simpl.
  destruct (PrimFloat.leb _ _); simpl;
    destruct (lock self) as [[]]; try discriminate; simpl;
    rewrite Hd, Hs; simpl; rewrite Halive; simpl;
    repeat apply conj; reflexivity.
Qed.

(** When loading is over and a model is missing, every tick that swaps
    opens one more warning box with the wrapper's ERROR, leaves the status
    bar alone and shows the raw frame. *)
Theorem update_frame_with_models_missing self current_time capture image src :
  is_alive (thread (swapper self)) = false ->
  app (swapper self) = None \/ face_swap.swapper (swapper self) = None ->
  cap self = Some capture -> isOpened capture = true ->
  locked (lock self) = false ->
  isChecked (face_detection_check self) = true ->
  src_img self = Some src ->
  (update_frame (Some image) current_time self).1 = Return tt
  /\ dialogs (update_frame (Some image) current_time self).2
     = (dialogs self
        ++ [{| box_icon := Warning; box_title := "警告";
               box_text := "ERROR: 模型未正确加载" |}])%list
  /\ status_bar (update_frame (Some image) current_time self).2
     = status_bar self
  /\ pixmap (cam_label (update_frame (Some image) current_time self).2)
     = Some (scaled (fromImage image) 800 600).
Proof.
  intros Halive Hmissing Hc Ho Hl Hd Hs.
  assert (Hsw : match face_swap.swapper (swapper self), app (swapper self) with
                | Some _, Some _ => False
                | _, _ => True
                end)
    by (destruct Hmissing as [-> | ->];
        [destruct (face_swap.swapper (swapper self))|]; exact I).
  unfold update_frame, call_swap_face, swap_face, emit_log, handle_log,
    logger_emit, log. unfold_gui. unfold_py.
  rewrite Hc. simpl. rewrite Ho. simpl.
  destruct (PrimFloat.leb _ _); simpl;
    destruct (lock self) as [[]]; try discriminate; simpl;
    rewrite Hd, Hs; simpl; rewrite Halive; simpl;
    destruct (face_swap.swapper (swapper self)) as [sw|];
    destruct (app (swapper self)) as [ap|]; try contradiction; simpl;
    repeat apply conj; reflexivity.
Qed.


(** *** Log records in the window *)

(** Where one record goes: INFO and WARNING to the status bar, the latter
    for five seconds; ERROR to a warning box. *)
Lemma emit_log_routes record self :
  emit_log record self
  = (Return tt,
     match lr_level record with
     | INFO =>
         set_status_bar
           (showMessage ("INFO: " ++ lr_message record) 0 (status_bar self))
           self
     | WARNING =>
         set_status_bar
           (showMessage ("WARNING: " ++ lr_message record) 5000
              (status_bar self)) self
     | ERROR =>
         set_dialogs
           (dialogs self ++
              [{| box_icon := Warning; box_title := "警告";
                  box_text := "ERROR: " ++ lr_message record |}])%list self
     end).
Proof. destruct record as [[] msg]; reflexivity. Qed.

(** Whatever the wrapper logs, handing the records to the window never
    raises, opens one warning box per ERROR record, in order, with the
    formatted text, and none for INFO and WARNING records; besides the boxes
    only the status bar changes. *)
Theorem log_records_open_a_box_per_error records self :
  exists bar,
    for_each records emit_log self
    = (Return tt,
       set_status_bar bar
         (set_dialogs (dialogs self ++ omap error_box records)%list self)).
Proof.
  revert self. induction records as [|r rs IH]; intros self.
  - exists (status_bar self). simpl. unfold ret. rewrite app_nil_r.
    rewrite <- (eta_self self) at 1. reflexivity.
  - cbn [for_each]. unfold bind. rewrite emit_log_routes.
    cbn [omap list_omap]. unfold error_box at 1.
    destruct (lr_level r);
      match goal with
      | |- context [for_each rs emit_log ?st] =>
          destruct (IH st) as (bar & ->)
      end;
      exists bar; simpl; rewrite <- ?app_assoc; reflexivity.
Qed.

(** When the loader thread exits because the model file is missing, the
    window learns it once: the loader's ERROR opens one warning box naming
    the path, the status bar is left with the last INFO message, and the
    wrapper holds the detection model only. *)
Theorem loader_exit_reports_missing_file (env : LoadEnv Image Face) self a :
  is_alive (thread (swapper self)) = true ->
  new_FaceAnalysis env = Return a ->
  prepare env = Return tt ->
  path_exists env = false ->
  dispatch (loader_exited env) self
  = (Return tt,
     set_status_bar {| message := "INFO: 人脸检测模型加载完成"; timeout := 0 |}
       (set_dialogs
          (dialogs self ++
             [{| box_icon := Warning; box_title := "警告";
                 box_text := "ERROR: 模型文件不存在: " ++ model_path env |}])%list
          (set_swapper
             {| app := Some a;
                face_swap.swapper := face_swap.swapper (swapper self);
                thread := {| is_alive := false |} |} self))).
Proof.
  intros Halive Ha Hp Hex.
  assert (Hrun : run_loader env (swapper self)
                 = ({| app := Some a;
                       face_swap.swapper := face_swap.swapper (swapper self);
                       thread := {| is_alive := false |} |},
                    [{| lr_level := INFO; lr_message := "开始加载人脸检测模型..." |};
                     {| lr_level := INFO; lr_message := "人脸检测模型加载完成" |};
                     {| lr_level := ERROR;
                        lr_message := "模型文件不存在: " ++ model_path env |}])).
  { unfold run_loader, _load_models, logger_emit, put_log, upd_self.
    unfold_py. simpl. rewrite Ha. simpl. rewrite Hp. simpl. rewrite Hex.
    reflexivity. }
  unfold dispatch. unfold_py. cbv beta iota. rewrite Halive, Hrun.
  reflexivity.
Qed.

(** *** A start that fails *)

(** [toggle_camera] relabels the button whatever [start_camera] did: when
    the capture does not open, or opening raises, the click returns with one
    more error box, [is_running] still unset and the timer untouched, yet
    the button now reads "stop". *)
Theorem toggle_camera_relabels_after_failed_start self device :
  is_running self = false ->
  device = Return false \/ (exists e, device = Raise e) ->
  (toggle_camera device self).1 = Return tt
  /\ button_text (start_button (toggle_camera device self).2) = "停止"
  /\ is_running (toggle_camera device self).2 = false
  /\ timer (toggle_camera device self).2 = timer self
  /\ capture_open (toggle_camera device self).2
     = match device with Return _ => false | Raise _ => capture_open self end
  /\ length (dialogs (toggle_camera device self).2)
     = S (length (dialogs self)).
Proof.
  intros Hstopped Hdevice.
  unfold toggle_camera, start_camera, capture_open. unfold_gui. unfold_py.
  rewrite Hstopped.
  destruct Hdevice as [-> |[e ->]]; simpl;
    rewrite ?Hstopped, ?length_app; simpl;
    repeat apply conj; first [reflexivity|lia].
Qed.

(** *** Adding a file that was read *)

(** A file that [cv2.imread] reads is stored under its base name, replacing
    an image stored under the same name, and the name is appended to the
    selection box even if it is listed already.  The current row changes
    only when the box was empty, to row 0. *)
Theorem add_readable_file_stores_and_lists file img self :
  src_images (add_source_image_file file (Return (Some img)) self).2
  = <[basename file := img]> (src_images self)
  /\ src_images (add_source_image_file file (Return (Some img)) self).2
     !! basename file = Some img
  /\ items (source_combo
              (add_source_image_file file (Return (Some img)) self).2)
     = (items (source_combo self) ++ [basename file])%list
  /\ currentIndex (source_combo
                     (add_source_image_file file (Return (Some img)) self).2)
     = (if (currentIndex (source_combo self) <? 0)%Z
           && (count (source_combo self) =? 0)%Z
        then 0%Z else currentIndex (source_combo self)).
Proof.
  set (name := basename file).
  set (stored := set_src_images (<[name := img]> (src_images self)) self).
  assert (Hpart : selection_part
                    (add_source_image_file file (Return (Some img)) self).2
                  = (<[name := img]> (src_images self),
                     (addItem name (source_combo self)).1)).
  { assert (Hadd : selection_part (source_combo_addItem name stored).2
                   = (<[name := img]> (src_images self),
                      (addItem name (source_combo self)).1)).
    { unfold source_combo_addItem. unfold_py.
      change (source_combo stored) with (source_combo self).
      destruct (addItem name (source_combo self)) as [combo [i|]]; simpl.
      - rewrite (keeps_pair_r _ _ _ (change_source_image_keeps i)).
        reflexivity.
      - reflexivity. }
    unfold add_source_image_file. unfold_gui. unfold_py. simpl.
    fold name. fold stored.
    destruct (source_combo_addItem name stored) as [[[]|e] added];
      simpl in *; [|exact Hadd].
    destruct (Z.of_nat (size (src_images added)) =? 1)%Z; [|exact Hadd].
    pose proof (keeps_pair_r _ _ _ (change_source_image_keeps 0) added) as Hk.
    destruct (change_source_image 0 added) as [[[]|e] chosen];
      unfold selection_part in *; simpl in *; congruence. }
  pose proof (f_equal fst Hpart) as Himages.
  pose proof (f_equal snd Hpart) as Hcombo. simpl in Himages, Hcombo.
  rewrite Himages, Hcombo. unfold addItem.
  repeat apply conj; [reflexivity|apply lookup_insert_eq| |];
    destruct (_ && _); reflexivity.
Qed.


End WindowProperties.

(** * The properties at sample windows *)

(** A tick on the sample window with the lock free: the swap is made under
    the lock and its result is shown. *)
Example update_frame_swaps_when_free :
  gui.swap_calls (gui.update_frame (Some 5) 0.5%float samples.capturing).2
  = [{| gui.call_src := 3; gui.call_dst := 5; gui.call_locked := true |}]
  /\ gui.pixmap
       (gui.cam_label (gui.update_frame (Some 5) 0.5%float samples.capturing).2)
     = Some (gui.scaled (gui.fromImage 3005) 800 600)
  /\ gui.lock (gui.update_frame (Some 5) 0.5%float samples.capturing).2
     = {| gui.locked := false |}.
Proof. repeat apply conj; reflexivity. Qed.

(** C4, at the sample window while another tick holds the lock. *)
Lemma update_frame_swaps_only_under_lock_witness :
  gui.swap_calls
    (gui.update_frame (Some 5) 0.5%float samples.capturing_busy).2 = []
  /\ gui.pixmap
       (gui.cam_label
          (gui.update_frame (Some 5) 0.5%float samples.capturing_busy).2)
     = Some (gui.scaled (gui.fromImage 5) 800 600).
Proof.
  destruct (update_frame_swaps_only_under_lock
              samples.capturing_busy (Some 5) 0.5%float)
    as (_ & _ & _ & Hbusy).
  destruct (Hbusy eq_refl) as (Hcalls & _ & _ & Hshown).
  split; [exact Hcalls|].
  apply (Hshown _ 5 eq_refl eq_refl eq_refl).
Defined.

(** C6, at the sample window while it captures. *)
Lemma stop_camera_releases_and_halts_witness :
  gui.cap (gui.stop_camera samples.capturing).2
  = Some {| gui.isOpened := false;
            gui.CAP_PROP_FRAME_WIDTH := Some 640;
            gui.CAP_PROP_FRAME_HEIGHT := Some 480 |}
  /\ gui.isOpened
       {| gui.isOpened := false;
          gui.CAP_PROP_FRAME_WIDTH := Some 640;
          gui.CAP_PROP_FRAME_HEIGHT := Some 480 |} = false
  /\ gui.isActive {| gui.isActive := false; gui.interval := 30 |} = false
  /\ gui.is_running (gui.stop_camera samples.capturing).2 = false.
Proof.
  destruct (stop_camera_releases_and_halts samples.capturing)
    as (_ & Hcap & Hreleased & _ & Hstopped & Hrunning).
  split; [exact Hcap|]. split; [exact (Hreleased _ eq_refl)|].
  split; [exact (Hstopped _ eq_refl)|exact Hrunning].
Defined.

(** C10, at a window that has no capture yet. *)
Lemma update_frame_returns_early_witness :
  gui.update_frame (Some 5) 0.5%float samples.fresh = (Return tt, samples.fresh).
Proof.
  apply update_frame_returns_early. left. reflexivity.
Defined.

(** C9, after the first poll of the loader and the choice of a source
    image. *)
Lemma first_toggle_stops_camera_witness :
  gui.camera_part
    (gui.toggle_camera (Return true)
       (gui.run [gui.single_shot_timeout;
                 gui.add_source_clicked true
                   [("/home/me/face.png", Return (Some 3))]]
          (@gui.__init__ Z Z 0%float)).2).2
  = (false, None, None).
Proof.
  apply (first_toggle_stops_camera 0%float
           [gui.single_shot_timeout;
            gui.add_source_clicked true [("/home/me/face.png", Return (Some 3))]]
           (Return true)).
  reflexivity.
Defined.

(** C7, after two files were added, one of them unreadable, and the second
    listed name was chosen; index 7 is outside the box. *)
Lemma selection_invariant_holds_witness :
  gui.selection_ok
    (gui.run [gui.add_source_clicked true
                [("/home/me/a.png", Return (Some 3));
                 ("/home/me/broken.png", Return None);
                 ("/home/me/b.jpg", Return (Some 4))];
              gui.source_activated 1]
       (@gui.__init__ Z Z 0%float)).2
  /\ gui.change_source_image 7 samples.fresh = (Return tt, samples.fresh).
Proof.
  pose proof (selection_invariant_holds (Image := Z) (Face := Z) 0%float
                [gui.add_source_clicked true
                   [("/home/me/a.png", Return (Some 3));
                    ("/home/me/broken.png", Return None);
                    ("/home/me/b.jpg", Return (Some 4))];
                 gui.source_activated 1] 7) as (_ & Hok & _ & _ & Hout).
  split; [exact Hok|].
  apply Hout. right. unfold gui.count. simpl. lia.
Defined.

(** C5, at the window just constructed, whose loader is still running. *)
Lemma loading_is_polled_but_gates_nothing_witness :
  gui.camera_enabled (gui.start_camera (Return true) samples.fresh).2 = true
  /\ face_swap.is_alive
       (face_swap.thread
          (gui.swapper (gui.start_camera (Return true) samples.fresh).2)) = true.
Proof.
  destruct (loading_is_polled_but_gates_nothing samples.fresh (Return true)
              samples.loading) as (_ & _ & _ & _ & Hstart).
  destruct (Hstart eq_refl) as (_ & Henabled & _).
  - simpl. lia.
  - split; [exact Henabled|reflexivity].
Defined.

(** C5 as stated fails: two clicks on the camera button of a window just
    constructed (the first stops, the second starts) open the capture and
    start the frame timer while the loader thread is still alive. *)
Lemma camera_starts_while_models_load :
  gui.camera_enabled
    (gui.run [gui.start_clicked (Return true); gui.start_clicked (Return true)]
       (@gui.__init__ Z Z 0%float)).2 = true
  /\ gui.is_running
       (gui.run [gui.start_clicked (Return true); gui.start_clicked (Return true)]
          (@gui.__init__ Z Z 0%float)).2 = true
  /\ face_swap.is_alive
       (face_swap.thread
          (gui.swapper
             (gui.run [gui.start_clicked (Return true);
                       gui.start_clicked (Return true)]
                (@gui.__init__ Z Z 0%float)).2)) = true.
Proof. repeat apply conj; reflexivity. Qed.

(** C8, where the code falls short of it: a selected file that
    [cv2.imread] cannot read (it returns [None]) leaves the window as it
    was; no box is shown and the status bar keeps its message, although a
    load that raises is reported. *)
Lemma unreadable_image_is_skipped_silently :
  gui.add_source_image true [("/home/me/broken.png", Return None)]
    samples.fresh
  = (Return tt, samples.fresh)
  /\ gui.dialogs
       (gui.add_source_image true [("/home/me/broken.png", Return None)]
          samples.fresh).2 = []
  /\ gui.message
       (gui.status_bar
          (gui.add_source_image true [("/home/me/broken.png", Return None)]
             samples.fresh).2) = "就绪"
  /\ gui.dialogs
       (gui.add_source_image true
          [("/home/me/broken.png",
            Raise (Exception "cv2.error" "could not decode"))]
          samples.fresh).2
     = [{| gui.box_icon := gui.Warning; gui.box_title := "警告";
           gui.box_text := "加载图片失败: could not decode" |}].
Proof. repeat apply conj; reflexivity. Qed.

(** * Further properties at the samples *)

Lemma load_models_failure_clears_both_witness :
  exists before,
    face_swap._load_models samples.env_broken (samples.loading, [])
    = (Return tt,
       ({| face_swap.app := None; face_swap.swapper := None;
           face_swap.thread := {| face_swap.is_alive := true |} |},
        ([] ++ before
           ++ [{| face_swap.lr_level := face_swap.ERROR;
                  face_swap.lr_message := "模型加载失败: no provider" |}])%list))
    /\ Forall (fun r => face_swap.lr_level r = face_swap.INFO) before.
Proof.
  apply (load_models_failure_clears_both samples.env_broken samples.loading []
           (Exception "RuntimeError" "no provider")).
  right; left. exists samples.detector. split; reflexivity.
Defined.

Lemma load_models_missing_file_witness :
  face_swap.app
    (face_swap._load_models samples.env_missing (samples.loading, [])).2.1
  = Some samples.detector
  /\ face_swap.swapper
       (face_swap._load_models samples.env_missing (samples.loading, [])).2.1
     = None.
Proof.
  pose proof (load_models_missing_file samples.env_missing samples.loading []
                samples.detector eq_refl eq_refl eq_refl) as Hrun.
  split.
  - exact (f_equal (fun r => face_swap.app r.2.1) Hrun).
  - exact (f_equal (fun r => face_swap.swapper r.2.1) Hrun).
Defined.

Lemma swap_face_after_failed_loading_witness :
  face_swap.swap_face
    (face_swap.run_loader samples.env_missing face_swap.__init__).1 3 5 []
  = (Return (Some 5),
     [{| face_swap.lr_level := face_swap.ERROR;
         face_swap.lr_message := "模型未正确加载" |}]).
Proof.
  apply (swap_face_after_failed_loading samples.env_missing 3 5 []).
  right; right; left. reflexivity.
Defined.

Lemma load_models_success_witness :
  (face_swap.run_loader samples.env_ok face_swap.__init__).1 = samples.loaded.
Proof.
  exact (f_equal fst
           (load_models_success samples.env_ok samples.detector
              samples.inswapper eq_refl eq_refl eq_refl eq_refl)).
Defined.

Lemma swap_face_logs_at_most_one_record_witness :
  exists result,
    (face_swap.swap_face samples.loaded 3 5 []).1 = Return result.
Proof.
  destruct (swap_face_logs_at_most_one_record samples.loaded 3 5 [])
    as (records & Hlog & _ & Hsilent).
  destruct records as [|r rs]; [|discriminate Hlog].
  destruct (Hsilent eq_refl) as (sw & d & s & result & _ & _ & Hres).
  exists result. exact Hres.
Defined.

Lemma swap_face_warns_about_missing_face_witness :
  face_swap.swap_face samples.loaded 0 0 []
  = (Return (Some 0),
     [{| face_swap.lr_level := face_swap.WARNING;
         face_swap.lr_message := "源图片中未检测到人脸" |}]).
Proof.
  apply (swap_face_warns_about_missing_face samples.loaded 0 0 []
           samples.detector samples.inswapper [] []);
    try reflexivity.
  left. reflexivity.
Defined.

Lemma capture_open_iff_timer_runs_witness :
  gui.capture_open
    (gui.run [gui.start_clicked (Return true)] (@gui.__init__ Z Z 0%float)).2
  = false
  /\ gui.timer_running
       (gui.run [gui.start_clicked (Return true)]
          (@gui.__init__ Z Z 0%float)).2 = false.
Proof.
  apply (capture_open_iff_timer_runs (Image := Z) (Face := Z) 0%float
           [gui.start_clicked (Return true)]).
  reflexivity.
Defined.

Lemma loader_is_polled_until_it_exits_witness :
  gui.label_hidden
    (gui.loading_label
       (gui.run [gui.single_shot_timeout] (@gui.__init__ Z Z 0%float)).2)
  = false
  /\ exists msec,
       gui.single_shots
         (gui.run [gui.single_shot_timeout] (@gui.__init__ Z Z 0%float)).2
       = [(msec, gui.init_camera_slot)].
Proof.
  apply (loader_is_polled_until_it_exits (Image := Z) (Face := Z) 0%float
           [gui.single_shot_timeout]).
  reflexivity.
Defined.

Lemma source_image_held_iff_listed_witness :
  gui.src_img
    (gui.run [gui.add_source_clicked true [("/home/me/broken.png", Return None)]]
       (@gui.__init__ Z Z 0%float)).2 = None.
Proof.
  apply (source_image_held_iff_listed (Image := Z) (Face := Z) 0%float
           [gui.add_source_clicked true [("/home/me/broken.png", Return None)]]).
  reflexivity.
Defined.

Lemma update_frame_counts_frames_witness :
  gui.fps (gui.update_frame (Some 5) 1.5%float samples.capturing).2 = 1
  /\ gui.frame_count (gui.update_frame (Some 5) 1.5%float samples.capturing).2
     = 0
  /\ gui.last_time (gui.update_frame (Some 5) 1.5%float samples.capturing).2
     = 1.5%float
  /\ gui.text
       (gui.fps_label (gui.update_frame (Some 5) 1.5%float samples.capturing).2)
     = "FPS: 1".
Proof.
  exact (update_frame_counts_frames samples.capturing (Some 5) 1.5%float
           _ 5 eq_refl eq_refl eq_refl).
Defined.

Lemma update_frame_shows_swap_result_witness :
  exists result,
    (face_swap.swap_face (gui.swapper samples.capturing) 3 5 []).1
    = Return result
    /\ gui.pixmap
         (gui.cam_label (gui.update_frame (Some 5) 0.5%float samples.capturing).2)
       = Some (gui.scaled (gui.fromImage (default 5 result)) 800 600).
Proof.
  destruct (update_frame_shows_swap_result samples.capturing 0.5%float _ 5 3
              eq_refl eq_refl eq_refl eq_refl eq_refl)
    as (result & Hres & Hshown & _).
  exists result. split; assumption.
Defined.

Lemma update_frame_without_swap_witness :
  gui.text
    (gui.cam_status
       (gui.update_frame (Some 5) 0.5%float samples.capturing_detection_off).2)
  = "人脸检测已禁用".
Proof.
  apply (update_frame_without_swap samples.capturing_detection_off 0.5%float
           _ 5 eq_refl eq_refl eq_refl).
  left. reflexivity.
Defined.

Lemma update_frame_while_loading_witness :
  gui.dialogs
    (gui.update_frame (Some 5) 0.5%float samples.capturing_while_loading).2 = []
  /\ gui.message
       (gui.status_bar
          (gui.update_frame (Some 5) 0.5%float
             samples.capturing_while_loading).2)
     = "INFO: 模型仍在加载中...".
Proof.
  destruct (update_frame_while_loading samples.capturing_while_loading
              0.5%float _ 5 3 eq_refl eq_refl eq_refl eq_refl eq_refl eq_refl)
    as (_ & Hboxes & Hbar & _).
  split; [exact Hboxes|]. rewrite Hbar. reflexivity.
Defined.

Lemma update_frame_with_models_missing_witness :
  gui.dialogs
    (gui.update_frame (Some 5) 0.5%float samples.capturing_without_model).2
  = [{| gui.box_icon := gui.Warning; gui.box_title := "警告";
        gui.box_text := "ERROR: 模型未正确加载" |}].
Proof.
  apply (update_frame_with_models_missing samples.capturing_without_model
           0.5%float _ 5 3 eq_refl (or_intror eq_refl)
           eq_refl eq_refl eq_refl eq_refl eq_refl).
Defined.

Lemma loader_exit_reports_missing_file_witness :
  gui.dialogs (gui.dispatch (gui.loader_exited samples.env_missing) samples.fresh).2
  = [{| gui.box_icon := gui.Warning; gui.box_title := "警告";
        gui.box_text :=
          "ERROR: 模型文件不存在: /home/me/.insightface/models/inswapper_128.onnx" |}].
Proof.
  exact (f_equal (fun r => gui.dialogs r.2)
           (loader_exit_reports_missing_file samples.env_missing samples.fresh
              samples.detector eq_refl eq_refl eq_refl eq_refl)).
Defined.

Lemma toggle_camera_relabels_after_failed_start_witness :
  gui.button_text
    (gui.start_button (gui.toggle_camera (Return false) samples.stopped).2)
  = "停止"
  /\ gui.is_running (gui.toggle_camera (Return false) samples.stopped).2 = false.
Proof.
  destruct (toggle_camera_relabels_after_failed_start samples.stopped
              (Return false) eq_refl (or_introl eq_refl))
    as (_ & Hlabel & Hrunning & _).
  split; assumption.
Defined.
